(** * whitebox-controller: validation of the controller configuration

    A shallow embedding of [config/config.go].  Every Go struct of the
    package is a module holding a record [t] and its [Validate] method;
    a pointer field that the code compares with [nil] is an [option];
    a Go [error] is an optional message, [None] being [nil].

    The functions of the Go standard library and of third-party
    packages that the file calls ([time.ParseDuration], [os.Stat],
    [ioutil.ReadFile], [yaml.Unmarshal]) are interfaces: the theorems
    hold for every implementation of them. *)

From stdpp Require Import base strings list gmap pretty.
From Stdlib Require Import ZArith Ascii.

#[local] Set Warnings "-clear-no-such-hyp".

Local Open Scope string_scope.

(** ** Go runtime notions *)

(** A Go [error]: [nil] or a value whose [Error()] is the message. *)
Definition error : Type := option string.

Definition nil : error := None.

(** What a call does: it returns a value, or it panics (the only panic
    of this package is the dereference of a nil pointer). *)
Inductive outcome (A : Type) : Type :=
  | Returns (a : A)
  | Panics.

Arguments Returns {A} a.
Arguments Panics {A}.

(** [err := e; if err != nil { return r }; k] *)
Definition if_err (e : error) (r : error → error) (k : error) : error :=
  match e with
  | Some _ => r e
  | None => k
  end.

Notation "'check' x ← e 'fails' r ; k" := (if_err e (λ x, r) k)
  (at level 10, x name, e at level 100, r at level 100, k at level 200,
   format "'[v' 'check'  x  ←  e  'fails'  r ; '/' k ']'").

(** [for i, x := range xs { body }], from index [i] on, where the body
    can leave the function with an error: [body i x] is that error, or
    [nil] when the body falls through to the next iteration.  The loop
    yields the first error, [nil] when it runs to its end. *)
Fixpoint range_err {A : Type} (body : nat → A → error)
    (i : nat) (xs : list A) : error :=
  match xs with
  | [] => nil
  | x :: rest => check err ← body i x fails err; range_err body (S i) rest
  end.

Module errors.

Definition New (text : string) : error := Some text.

End errors.

Module fmt.

(** The operands of the two verbs the package uses: [%d] with an [int]
    loop index and [%v] with an [error]. *)
Inductive arg : Type :=
  | D (i : nat)
  | V (e : error).

Definition show (a : arg) : string :=
  match a with
  | D i => pretty i
  | V (Some text) => text
  | V None => "<nil>"
  end.

(** Each [%x] of the format consumes the next operand. *)
Fixpoint Sprintf (format : string) (args : list arg) : string :=
  match format with
  | EmptyString => EmptyString
  | String c rest =>
      if Ascii.eqb c "%"%char then
        match rest, args with
        | String _ rest', a :: args' => show a +:+ Sprintf rest' args'
        | _, _ => String c (Sprintf rest args)
        end
      else String c (Sprintf rest args)
  end.

Definition Errorf (format : string) (args : list arg) : error :=
  Some (Sprintf format args).

End fmt.

(** ** Packages the file imports *)

Module time.

(** [time.Duration] is an [int64] count of nanoseconds. *)
Definition Duration : Type := Z.

Class API : Type := {
  ParseDuration : string → Duration * error
}.

End time.

Module os.

(** [os.Stat] returns a [FileInfo] and an error; the package discards
    the [FileInfo] at each call, so only the error is kept. *)
Class API : Type := {
  Stat : string → error
}.

End os.

Module ioutil.

Class API : Type := {
  ReadFile : string → list Byte.byte * error
}.

End ioutil.

Module handler.

(** Modelled from the spec: the interface [handler.Handler] of the
    package [handler], which is not part of the sources at hand.  The
    specification gives the handler contract as
    [invoke(request: bytes) → (response: bytes, error)]. *)
Definition Handler : Type := list Byte.byte → list Byte.byte * error.

End handler.

Module schema.

(** [k8s.io/apimachinery/pkg/runtime/schema]. *)
Module GroupVersionKind.

Record t : Type := {
  Group : string;
  Version : string;
  Kind : string
}.

(** [Empty] of apimachinery:
    [len(gvk.Group) == 0 && len(gvk.Version) == 0 && len(gvk.Kind) == 0]. *)
Definition Empty (gvk : t) : bool :=
  bool_decide (String.length (Group gvk) = 0)
  && bool_decide (String.length (Version gvk) = 0)
  && bool_decide (String.length (Kind gvk) = 0).

End GroupVersionKind.

End schema.

(** ** The configuration structs and their validation *)

Module DependentConfig.

Record t : Type := {
  GroupVersionKind : schema.GroupVersionKind.t;
  Orphan : bool
}.

(** The promoted method of the embedded struct. *)
Definition Empty (c : t) : bool :=
  schema.GroupVersionKind.Empty (GroupVersionKind c).

Definition Validate (c : t) : error :=
  if schema.GroupVersionKind.Empty (GroupVersionKind c)
  then errors.New "resource is empty"
  else nil.

End DependentConfig.

Module ReferenceConfig.

Record t : Type := {
  GroupVersionKind : schema.GroupVersionKind.t;
  NameFieldPath : string
}.

Definition Validate (c : t) : error :=
  if schema.GroupVersionKind.Empty (GroupVersionKind c)
  then errors.New "resource is empty"
  else if bool_decide (NameFieldPath c = "")
  then errors.New "nameFieldPath must be specified"
  else nil.

End ReferenceConfig.

Module ExecHandlerConfig.

Record t : Type := {
  Command : string;
  Args : list string;
  WorkingDir : string;
  Env : gmap string string;
  Timeout : string;
  Debug : bool
}.

Definition Validate {time_api : time.API} (c : t) : error :=
  if bool_decide (Command c = "")
  then errors.New "command must be specified"
  else
    check err ← (if bool_decide (Timeout c ≠ "")
                 then (time.ParseDuration (Timeout c)).2 else nil)
      fails fmt.Errorf "invalid timeout: %v" [fmt.V err];
    nil.

End ExecHandlerConfig.

Module HTTPHanlderTLSConfig.

Record t : Type := {
  CertFile : string;
  KeyFile : string;
  CACertFile : string
}.

Definition Validate (c : t) : error :=
  if bool_decide (CertFile c ≠ "")
  then errors.New "cert file must be specified"
  else if bool_decide (KeyFile c ≠ "")
  then errors.New "key file must be specified"
  else nil.

End HTTPHanlderTLSConfig.

Module HTTPHandlerConfig.

Record t : Type := {
  URL : string;
  TLS : option HTTPHanlderTLSConfig.t;
  Timeout : string;
  Debug : bool
}.

Definition Validate {time_api : time.API} (c : t) : error :=
  if bool_decide (URL c = "")
  then errors.New "url must be specified"
  else
    check err ← (match TLS c with
                 | Some tls => HTTPHanlderTLSConfig.Validate tls
                 | None => nil
                 end)
      fails fmt.Errorf "tls: %v" [fmt.V err];
    check err ← (if bool_decide (Timeout c ≠ "")
                 then (time.ParseDuration (Timeout c)).2 else nil)
      fails fmt.Errorf "invalid timeout: %v" [fmt.V err];
    nil.

End HTTPHandlerConfig.

Module FuncHandlerConfig.

Record t : Type := {
  Handler : option handler.Handler
}.

Definition Validate (c : t) : error :=
  match Handler c with
  | None => errors.New "handler must be specified"
  | Some _ => nil
  end.

End FuncHandlerConfig.

Module HandlerConfig.

Record t : Type := {
  Exec : option ExecHandlerConfig.t;
  HTTP : option HTTPHandlerConfig.t;
  Func : option FuncHandlerConfig.t
}.

(** The counter [specified] after the three conditional increments. *)
Definition specified (c : t) : nat :=
  let specified := 0 in
  let specified := if Exec c is Some _ then S specified else specified in
  let specified := if HTTP c is Some _ then S specified else specified in
  let specified := if Func c is Some _ then S specified else specified in
  specified.

Definition Validate {time_api : time.API} (c : t) : error :=
  if bool_decide (specified c = 0)
  then errors.New "handler must be specified"
  else if bool_decide (1 < specified c)
  then errors.New "exactly one handler must be specified"
  else
    check err ← (match Exec c with
                 | Some exec => ExecHandlerConfig.Validate exec
                 | None => nil
                 end) fails err;
    check err ← (match HTTP c with
                 | Some http => HTTPHandlerConfig.Validate http
                 | None => nil
                 end) fails err;
    check err ← (match Func c with
                 | Some func => FuncHandlerConfig.Validate func
                 | None => nil
                 end) fails err;
    nil.

End HandlerConfig.

Module ReconcilerConfig.

Record t : Type := {
  HandlerConfig : HandlerConfig.t;
  RequeueAfter : string;
  Observe : bool
}.

Definition Validate {time_api : time.API} (c : t) : error :=
  check err ← (if bool_decide (RequeueAfter c ≠ "")
               then (time.ParseDuration (RequeueAfter c)).2 else nil)
    fails fmt.Errorf "invalid requeueAfter: %v" [fmt.V err];
  HandlerConfig.Validate (HandlerConfig c).

End ReconcilerConfig.

Module SyncerConfig.

Record t : Type := {
  Interval : string
}.

Definition Validate {time_api : time.API} (c : t) : error :=
  check err ← (if bool_decide (Interval c ≠ "")
               then (time.ParseDuration (Interval c)).2 else nil)
    fails fmt.Errorf "invalid interval: %v" [fmt.V err];
  nil.

End SyncerConfig.

Module ControllerConfig.

Record t : Type := {
  Name : string;
  Resource : schema.GroupVersionKind.t;
  Dependents : list DependentConfig.t;
  References : list ReferenceConfig.t;
  Reconciler : option ReconcilerConfig.t;
  Finalizer : option HandlerConfig.t;
  Syncer : option SyncerConfig.t
}.

Definition Validate {time_api : time.API} (c : t) : error :=
  if bool_decide (Name c = "")
  then errors.New "name must be specified"
  else if schema.GroupVersionKind.Empty (Resource c)
  then errors.New "resource is empty"
  else
    check err ← range_err
                  (λ i ref,
                     check err ← ReferenceConfig.Validate ref
                       fails fmt.Errorf "references[%d]: %v" [fmt.D i; fmt.V err];
                     nil)
                  0 (References c)
      fails err;
    check err ← range_err
                  (λ i dep,
                     if DependentConfig.Empty dep
                     then fmt.Errorf "dependents[%d] is empty" [fmt.D i]
                     else nil)
                  0 (Dependents c)
      fails err;
    match Reconciler c with
    | None => errors.New "reconciler must be specified"
    | Some reconciler =>
        check err ← ReconcilerConfig.Validate reconciler
          fails fmt.Errorf "reconciler: %v" [fmt.V err];
        check err ← (match Finalizer c with
                     | Some finalizer => HandlerConfig.Validate finalizer
                     | None => nil
                     end)
          fails fmt.Errorf "finalizer: %v" [fmt.V err];
        check err ← (match Syncer c with
                     | Some syncer => SyncerConfig.Validate syncer
                     | None => nil
                     end)
          fails fmt.Errorf "syncer: %v" [fmt.V err];
        nil
    end.

End ControllerConfig.

Module WebhookTLSConfig.

Record t : Type := {
  CertFile : string;
  KeyFile : string
}.

Definition Validate (c : t) : error :=
  if bool_decide (CertFile c = "")
  then errors.New "cert file must be specified"
  else if bool_decide (KeyFile c = "")
  then errors.New "key file must be specified"
  else nil.

End WebhookTLSConfig.

Module InjectorConfig.

Record t : Type := {
  HandlerConfig : HandlerConfig.t;
  VerifyKeyFile : string
}.

Definition Validate {time_api : time.API} {os_api : os.API} (c : t) : error :=
  check err ← os.Stat (VerifyKeyFile c)
    fails fmt.Errorf "failed to read verification key file: %v" [fmt.V err];
  HandlerConfig.Validate (HandlerConfig c).

End InjectorConfig.

Module WebhookHandlerConfig.

Record t : Type := {
  Resource : schema.GroupVersionKind.t;
  Validator : option HandlerConfig.t;
  Mutator : option HandlerConfig.t;
  Injector : option InjectorConfig.t
}.

Definition Validate {time_api : time.API} (c : t) : error :=
  if schema.GroupVersionKind.Empty (Resource c)
  then errors.New "resource is empty"
  else
    check err ← (match Validator c with
                 | Some validator => HandlerConfig.Validate validator
                 | None => nil
                 end)
      fails fmt.Errorf "validator: %v" [fmt.V err];
    nil.

End WebhookHandlerConfig.

Module WebhookConfig.

(** [Handlers] is a slice of pointers: an entry can be [nil]. *)
Record t : Type := {
  Host : string;
  Port : Z;
  TLS : option WebhookTLSConfig.t;
  Handlers : list (option WebhookHandlerConfig.t)
}.

Definition Validate (c : t) : error :=
  match TLS c with
  | None => errors.New "tls must be specified"
  | Some tls =>
      check err ← WebhookTLSConfig.Validate tls
        fails fmt.Errorf "tls: %v" [fmt.V err];
      nil
  end.

End WebhookConfig.

Module MetricsConfig.

Record t : Type := {
  Host : string;
  Port : Z
}.

Definition Validate (c : t) : error :=
  if bool_decide (Port c = 0%Z)
  then errors.New "port must be specified"
  else nil.

End MetricsConfig.

Module Config.

(** [Controllers] is a slice of pointers: an entry can be [nil]. *)
Record t : Type := {
  Controllers : list (option ControllerConfig.t);
  Webhook : option WebhookConfig.t;
  Metrics : option MetricsConfig.t
}.

(** The loop over [c.Controllers], from index [i] on.  Calling
    [controller.Validate()] on a nil entry reads [c.Name] through the
    nil pointer, which panics. *)
Fixpoint range_controllers {time_api : time.API} (i : nat)
    (controllers : list (option ControllerConfig.t)) : outcome error :=
  match controllers with
  | [] => Returns nil
  | None :: _ => Panics
  | Some controller :: rest =>
      match ControllerConfig.Validate controller with
      | Some _ as err =>
          Returns (fmt.Errorf "controller[%d]: %v" [fmt.D i; fmt.V err])
      | None => range_controllers (S i) rest
      end
  end.

Definition Validate {time_api : time.API} (c : t) : outcome error :=
  match range_controllers 0 (Controllers c) with
  | Panics => Panics
  | Returns (Some _ as err) => Returns err
  | Returns None =>
      Returns (
        check err ← (match Webhook c with
                     | Some webhook => WebhookConfig.Validate webhook
                     | None => nil
                     end)
          fails fmt.Errorf "webhook: %v" [fmt.V err];
        check err ← (match Metrics c with
                     | Some metrics => MetricsConfig.Validate metrics
                     | None => nil
                     end)
          fails fmt.Errorf "metrics: %v" [fmt.V err];
        nil)
  end.

(** The zero value [Config{}]. *)
Definition zero : t :=
  {| Controllers := []; Webhook := None; Metrics := None |}.

End Config.

Module yaml.

(** [yaml.Unmarshal(buf, c)] fills the [Config] that [c] points to and
    returns an error: the function gives the [Config] after the call
    and that error. *)
Class API : Type := {
  Unmarshal : list Byte.byte → Config.t → Config.t * error
}.

End yaml.

(** [LoadFile] returns a [*Config] ([None] is the nil pointer) and an
    error, or panics where [Validate] does. *)
Definition LoadFile {time_api : time.API} {ioutil_api : ioutil.API}
    {yaml_api : yaml.API} (p : string) :
    outcome (option Config.t * error) :=
  let '(buf, err) := ioutil.ReadFile p in
  match err with
  | Some _ => Returns (None, err)
  | None =>
      let '(c, err) := yaml.Unmarshal buf Config.zero in
      match err with
      | Some _ => Returns (None, err)
      | None =>
          match Config.Validate c with
          | Panics => Panics
          | Returns (Some _ as err) => Returns (None, err)
          | Returns None => Returns (Some c, nil)
          end
      end
  end.

(** ** The second revision of [config.go]

    The sources hold a second revision of the file, in which a
    controller has either a reconciler or an observer, a handler is
    exec or http, and the TLS validation looks at the file system.
    The structs [ExecHandlerConfig], [HTTPHandlerConfig],
    [HTTPHanlderTLSConfig], [SyncerConfig] and [WebhookTLSConfig] are
    declared there with the fields of the first revision, and
    [ExecHandlerConfig.Validate] and [SyncerConfig.Validate] with the
    same body: these are shared.  What differs is declared anew. *)

Module Rev2.

Module HTTPHanlderTLSConfig.

Definition Validate {os_api : os.API} (c : HTTPHanlderTLSConfig.t) : error :=
  check err ← (if bool_decide (HTTPHanlderTLSConfig.CertFile c ≠ "")
               then os.Stat (HTTPHanlderTLSConfig.CertFile c) else nil)
    fails fmt.Errorf "failed to read cert file: %v" [fmt.V err];
  check err ← (if bool_decide (HTTPHanlderTLSConfig.KeyFile c ≠ "")
               then os.Stat (HTTPHanlderTLSConfig.KeyFile c) else nil)
    fails fmt.Errorf "failed to read key file: %v" [fmt.V err];
  check err ← (if bool_decide (HTTPHanlderTLSConfig.CACertFile c ≠ "")
               then os.Stat (HTTPHanlderTLSConfig.CACertFile c) else nil)
    fails fmt.Errorf "failed to read ca cert file: %v" [fmt.V err];
  nil.

End HTTPHanlderTLSConfig.

Module HTTPHandlerConfig.

Definition Validate {time_api : time.API} {os_api : os.API}
    (c : HTTPHandlerConfig.t) : error :=
  if bool_decide (HTTPHandlerConfig.URL c = "")
  then errors.New "url must be specified"
  else
    check err ← (match HTTPHandlerConfig.TLS c with
                 | Some tls => HTTPHanlderTLSConfig.Validate tls
                 | None => nil
                 end)
      fails fmt.Errorf "tls: %v" [fmt.V err];
    check err ← (if bool_decide (HTTPHandlerConfig.Timeout c ≠ "")
                 then (time.ParseDuration (HTTPHandlerConfig.Timeout c)).2
                 else nil)
      fails fmt.Errorf "invalid timeout: %v" [fmt.V err];
    nil.

End HTTPHandlerConfig.

Module HandlerConfig.

Record t : Type := {
  Exec : option ExecHandlerConfig.t;
  HTTP : option HTTPHandlerConfig.t
}.

Definition Validate {time_api : time.API} {os_api : os.API} (c : t) : error :=
  if bool_decide (Exec c = None) && bool_decide (HTTP c = None)
  then errors.New "handler must be specified"
  else if bool_decide (Exec c ≠ None) && bool_decide (HTTP c ≠ None)
  then errors.New "exactly one handler must be specified"
  else
    check err ← (match Exec c with
                 | Some exec => ExecHandlerConfig.Validate exec
                 | None => nil
                 end) fails err;
    check err ← (match HTTP c with
                 | Some http => HTTPHandlerConfig.Validate http
                 | None => nil
                 end) fails err;
    nil.

End HandlerConfig.

Module ControllerConfig.

Record t : Type := {
  Name : string;
  Resource : schema.GroupVersionKind.t;
  Dependents : list schema.GroupVersionKind.t;
  Reconciler : option HandlerConfig.t;
  Observer : option HandlerConfig.t;
  Syncer : option SyncerConfig.t
}.

Definition Validate {time_api : time.API} {os_api : os.API} (c : t) : error :=
  if bool_decide (Name c = "")
  then errors.New "name must be specified"
  else if schema.GroupVersionKind.Empty (Resource c)
  then errors.New "resource is empty"
  else if bool_decide (Reconciler c = None) && bool_decide (Observer c = None)
  then errors.New "either reconciler or observer must be specified"
  else if bool_decide (Reconciler c ≠ None) && bool_decide (Observer c ≠ None)
  then errors.New "exactly one of reconciler or observer must be specified"
  else
    check err ← (match Reconciler c with
                 | Some reconciler =>
                     check err ← HandlerConfig.Validate reconciler
                       fails fmt.Errorf "reconciler: %v" [fmt.V err];
                     check err ← range_err
                                   (λ i dep,
                                      if schema.GroupVersionKind.Empty dep
                                      then fmt.Errorf "dependents[%d] is empty"
                                             [fmt.D i]
                                      else nil)
                                   0 (Dependents c)
                       fails err;
                     check err ← (match Syncer c with
                                  | Some syncer => SyncerConfig.Validate syncer
                                  | None => nil
                                  end)
                       fails fmt.Errorf "syncer: %v" [fmt.V err];
                     nil
                 | None => nil
                 end) fails err;
    check err ← (match Observer c with
                 | Some observer => HandlerConfig.Validate observer
                 | None => nil
                 end)
      fails fmt.Errorf "observer: %v" [fmt.V err];
    nil.

End ControllerConfig.

Module WebhookTLSConfig.

Definition Validate {os_api : os.API} (c : WebhookTLSConfig.t) : error :=
  if bool_decide (WebhookTLSConfig.CertFile c = "")
  then errors.New "cert file must be specified"
  else if bool_decide (WebhookTLSConfig.KeyFile c = "")
  then errors.New "key file must be specified"
  else
    check err ← os.Stat (WebhookTLSConfig.CertFile c)
      fails fmt.Errorf "failed to read cert file: %v" [fmt.V err];
    check err ← os.Stat (WebhookTLSConfig.KeyFile c)
      fails fmt.Errorf "failed to read key file: %v" [fmt.V err];
    nil.

End WebhookTLSConfig.

Module WebhookHandlerConfig.

Record t : Type := {
  Resource : schema.GroupVersionKind.t;
  Validator : option HandlerConfig.t;
  Mutator : option HandlerConfig.t
}.

Definition Validate {time_api : time.API} {os_api : os.API} (c : t) : error :=
  if schema.GroupVersionKind.Empty (Resource c)
  then errors.New "resource is empty"
  else
    check err ← (match Validator c with
                 | Some validator => HandlerConfig.Validate validator
                 | None => nil
                 end)
      fails fmt.Errorf "validator: %v" [fmt.V err];
    nil.

End WebhookHandlerConfig.

Module WebhookConfig.

Record t : Type := {
  Host : string;
  Port : Z;
  TLS : option WebhookTLSConfig.t;
  Handlers : list (option WebhookHandlerConfig.t)
}.

Definition Validate {os_api : os.API} (c : t) : error :=
  match TLS c with
  | None => errors.New "tls must be specified"
  | Some tls =>
      check err ← WebhookTLSConfig.Validate tls
        fails fmt.Errorf "tls: %v" [fmt.V err];
      nil
  end.

End WebhookConfig.

Module Config.

Record t : Type := {
  Controllers : list (option ControllerConfig.t);
  Webhook : option WebhookConfig.t
}.

(** The loop over [c.Controllers], from index [i] on; a nil entry
    panics as in the first revision. *)
Fixpoint range_controllers {time_api : time.API} {os_api : os.API} (i : nat)
    (controllers : list (option ControllerConfig.t)) : outcome error :=
  match controllers with
  | [] => Returns nil
  | None :: _ => Panics
  | Some controller :: rest =>
      match ControllerConfig.Validate controller with
      | Some _ as err =>
          Returns (fmt.Errorf "controller[%d]: %v" [fmt.D i; fmt.V err])
      | None => range_controllers (S i) rest
      end
  end.

Definition Validate {time_api : time.API} {os_api : os.API} (c : t) :
    outcome error :=
  match range_controllers 0 (Controllers c) with
  | Panics => Panics
  | Returns (Some _ as err) => Returns err
  | Returns None =>
      Returns (
        check err ← (match Webhook c with
                     | Some webhook => WebhookConfig.Validate webhook
                     | None => nil
                     end)
          fails fmt.Errorf "webhook: %v" [fmt.V err];
        nil)
  end.

Definition zero : t := {| Controllers := []; Webhook := None |}.

End Config.

Module yaml.

Class API : Type := {
  Unmarshal : list Byte.byte → Config.t → Config.t * error
}.

End yaml.

Definition LoadFile {time_api : time.API} {os_api : os.API}
    {ioutil_api : ioutil.API} {yaml_api : yaml.API} (p : string) :
    outcome (option Config.t * error) :=
  let '(buf, err) := ioutil.ReadFile p in
  match err with
  | Some _ => Returns (None, err)
  | None =>
      let '(c, err) := yaml.Unmarshal buf Config.zero in
      match err with
      | Some _ => Returns (None, err)
      | None =>
          match Config.Validate c with
          | Panics => Panics
          | Returns (Some _ as err) => Returns (None, err)
          | Returns None => Returns (Some c, nil)
          end
      end
  end.

End Rev2.

(** ** A sample environment

    One implementation of the imported packages, used to run the
    validation on concrete configurations. *)

Module sample.

(** Parses three durations and rejects every other string. *)
Definition time_API : time.API := {|
  time.ParseDuration s :=
    if bool_decide (s = "30s") then (30000000000%Z, nil)
    else if bool_decide (s = "5m") then (300000000000%Z, nil)
    else if bool_decide (s = "1h") then (3600000000000%Z, nil)
    else (0%Z, errors.New ("time: invalid duration " +:+ s))
|}.

(** A file system holding one file. *)
Definition os_API : os.API := {|
  os.Stat name :=
    if bool_decide (name = "/etc/injector/verify.pem") then nil
    else errors.New ("stat " +:+ name +:+ ": no such file or directory")
|}.

Definition gvk (group version kind : string) : schema.GroupVersionKind.t :=
  {| schema.GroupVersionKind.Group := group;
     schema.GroupVersionKind.Version := version;
     schema.GroupVersionKind.Kind := kind |}.

Definition exec (command timeout : string) : ExecHandlerConfig.t :=
  {| ExecHandlerConfig.Command := command;
     ExecHandlerConfig.Args := [];
     ExecHandlerConfig.WorkingDir := "";
     ExecHandlerConfig.Env := ∅;
     ExecHandlerConfig.Timeout := timeout;
     ExecHandlerConfig.Debug := false |}.

Definition http (url : string) (tls : option HTTPHanlderTLSConfig.t) :
    HTTPHandlerConfig.t :=
  {| HTTPHandlerConfig.URL := url;
     HTTPHandlerConfig.TLS := tls;
     HTTPHandlerConfig.Timeout := "";
     HTTPHandlerConfig.Debug := false |}.

Definition exec_handler (command timeout : string) : HandlerConfig.t :=
  {| HandlerConfig.Exec := Some (exec command timeout);
     HandlerConfig.HTTP := None;
     HandlerConfig.Func := None |}.

(** A handler config that sets no variant, and one that sets two. *)
Definition no_handler : HandlerConfig.t :=
  {| HandlerConfig.Exec := None;
     HandlerConfig.HTTP := None;
     HandlerConfig.Func := None |}.

Definition two_handlers : HandlerConfig.t :=
  {| HandlerConfig.Exec := Some (exec "/bin/reconciler" "");
     HandlerConfig.HTTP := Some (http "http://127.0.0.1:8080/" None);
     HandlerConfig.Func := None |}.

Definition reconciler (command timeout requeueAfter : string) :
    ReconcilerConfig.t :=
  {| ReconcilerConfig.HandlerConfig := exec_handler command timeout;
     ReconcilerConfig.RequeueAfter := requeueAfter;
     ReconcilerConfig.Observe := false |}.

Definition secret_reference : ReferenceConfig.t :=
  {| ReferenceConfig.GroupVersionKind := gvk "" "v1" "Secret";
     ReferenceConfig.NameFieldPath := "spec.secretRef.name" |}.

(** A controller with one dependent, one reference and the given
    reconciler, without finalizer and syncer. *)
Definition controller (name : string)
    (reconciler : option ReconcilerConfig.t) : ControllerConfig.t :=
  {| ControllerConfig.Name := name;
     ControllerConfig.Resource := gvk "example.com" "v1alpha1" "Hello";
     ControllerConfig.Dependents :=
       [ {| DependentConfig.GroupVersionKind := gvk "" "v1" "ConfigMap";
            DependentConfig.Orphan := false |} ];
     ControllerConfig.References := [secret_reference];
     ControllerConfig.Reconciler := reconciler;
     ControllerConfig.Finalizer := None;
     ControllerConfig.Syncer := None |}.

(** A controller whose reconciler has durations, and one whose
    reconciler has none. *)
Definition timed_controller (name : string) : ControllerConfig.t :=
  controller name (Some (reconciler "/bin/reconciler" "30s" "5m")).

Definition plain_controller (name : string) : ControllerConfig.t :=
  controller name (Some (reconciler "/bin/reconciler" "" "")).

(** A TLS block that names a certificate and a key, and one that
    names neither. *)
Definition tls_files : HTTPHanlderTLSConfig.t :=
  {| HTTPHanlderTLSConfig.CertFile := "/etc/tls/tls.crt";
     HTTPHanlderTLSConfig.KeyFile := "/etc/tls/tls.key";
     HTTPHanlderTLSConfig.CACertFile := "" |}.

Definition tls_no_files : HTTPHanlderTLSConfig.t :=
  {| HTTPHanlderTLSConfig.CertFile := "";
     HTTPHanlderTLSConfig.KeyFile := "";
     HTTPHanlderTLSConfig.CACertFile := "" |}.

Definition injector (handler : HandlerConfig.t) (key : string) :
    InjectorConfig.t :=
  {| InjectorConfig.HandlerConfig := handler;
     InjectorConfig.VerifyKeyFile := key |}.

(** A webhook handler whose mutator sets no variant and whose injector
    sets two. *)
Definition webhook_handler : WebhookHandlerConfig.t :=
  {| WebhookHandlerConfig.Resource := gvk "example.com" "v1alpha1" "Hello";
     WebhookHandlerConfig.Validator := Some (exec_handler "/bin/validator" "");
     WebhookHandlerConfig.Mutator := Some no_handler;
     WebhookHandlerConfig.Injector :=
       Some (injector two_handlers "/etc/injector/verify.pem") |}.

Definition webhook (tls : option WebhookTLSConfig.t) : WebhookConfig.t :=
  {| WebhookConfig.Host := "0.0.0.0";
     WebhookConfig.Port := 443;
     WebhookConfig.TLS := tls;
     WebhookConfig.Handlers := [Some webhook_handler] |}.

Definition webhook_tls (cert key : string) : WebhookTLSConfig.t :=
  {| WebhookTLSConfig.CertFile := cert; WebhookTLSConfig.KeyFile := key |}.

Definition config (controllers : list (option ControllerConfig.t))
    (webhook : option WebhookConfig.t) : Config.t :=
  {| Config.Controllers := controllers;
     Config.Webhook := webhook;
     Config.Metrics := None |}.

(** Two controllers under one name. *)
Definition config_same_name : Config.t :=
  config [Some (plain_controller "hello"); Some (plain_controller "hello")] None.

(** A directory with two files. *)
Definition ioutil_API : ioutil.API := {|
  ioutil.ReadFile p :=
    if bool_decide (p = "config.yaml")
    then (String.list_byte_of_string "controllers: [hello]", nil)
    else if bool_decide (p = "broken.yaml")
    then (String.list_byte_of_string "controllers: {", nil)
    else ([], errors.New ("open " +:+ p +:+ ": no such file or directory"))
|}.

(** Decodes the one document and rejects every other. *)
Definition yaml_API : yaml.API := {|
  yaml.Unmarshal buf c :=
    if bool_decide (String.string_of_list_byte buf = "controllers: [hello]")
    then (config [Some (timed_controller "hello")] None, nil)
    else (c, errors.New "yaml: did not find expected node content")
|}.

(** A file system holding a certificate and its key. *)
Definition os_API_tls : os.API := {|
  os.Stat name :=
    if bool_decide (name = "/etc/tls/tls.crt") then nil
    else if bool_decide (name = "/etc/tls/tls.key") then nil
    else errors.New ("stat " +:+ name +:+ ": no such file or directory")
|}.

(** A controller without a name, and a reference without a path. *)
Definition unnamed_controller : ControllerConfig.t :=
  controller "" (Some (reconciler "/bin/reconciler" "" "")).

Definition pathless_reference : ReferenceConfig.t :=
  {| ReferenceConfig.GroupVersionKind := gvk "" "v1" "Secret";
     ReferenceConfig.NameFieldPath := "" |}.

Definition dependent (group version kind : string) : DependentConfig.t :=
  {| DependentConfig.GroupVersionKind := gvk group version kind;
     DependentConfig.Orphan := true |}.

(** A controller with the given references and dependents and no
    reconciler. *)
Definition bare_controller (references : list ReferenceConfig.t)
    (dependents : list DependentConfig.t) : ControllerConfig.t :=
  {| ControllerConfig.Name := "hello";
     ControllerConfig.Resource := gvk "example.com" "v1alpha1" "Hello";
     ControllerConfig.Dependents := dependents;
     ControllerConfig.References := references;
     ControllerConfig.Reconciler := None;
     ControllerConfig.Finalizer := None;
     ControllerConfig.Syncer := None |}.

Definition metrics (port : Z) : MetricsConfig.t :=
  {| MetricsConfig.Host := "0.0.0.0"; MetricsConfig.Port := port |}.

(** Handlers and a controller of the second revision. *)
Definition exec_handler2 (command : string) : Rev2.HandlerConfig.t :=
  {| Rev2.HandlerConfig.Exec := Some (exec command "30s");
     Rev2.HandlerConfig.HTTP := None |}.

Definition http_handler2 (url : string) (tls : option HTTPHanlderTLSConfig.t) :
    Rev2.HandlerConfig.t :=
  {| Rev2.HandlerConfig.Exec := None;
     Rev2.HandlerConfig.HTTP := Some (http url tls) |}.

Definition controller2 (reconciler observer : option Rev2.HandlerConfig.t)
    (dependents : list schema.GroupVersionKind.t)
    (syncer : option SyncerConfig.t) : Rev2.ControllerConfig.t :=
  {| Rev2.ControllerConfig.Name := "hello";
     Rev2.ControllerConfig.Resource := gvk "example.com" "v1alpha1" "Hello";
     Rev2.ControllerConfig.Dependents := dependents;
     Rev2.ControllerConfig.Reconciler := reconciler;
     Rev2.ControllerConfig.Observer := observer;
     Rev2.ControllerConfig.Syncer := syncer |}.

Definition webhook2 (tls : option WebhookTLSConfig.t) : Rev2.WebhookConfig.t :=
  {| Rev2.WebhookConfig.Host := "0.0.0.0";
     Rev2.WebhookConfig.Port := 443;
     Rev2.WebhookConfig.TLS := tls;
     Rev2.WebhookConfig.Handlers := [] |}.

Definition config2 (controllers : list (option Rev2.ControllerConfig.t))
    (webhook : option Rev2.WebhookConfig.t) : Rev2.Config.t :=
  {| Rev2.Config.Controllers := controllers; Rev2.Config.Webhook := webhook |}.

(** Decodes the one document into a configuration of the second
    revision. *)
Definition yaml_API2 : Rev2.yaml.API := {|
  Rev2.yaml.Unmarshal buf c :=
    if bool_decide (String.string_of_list_byte buf = "controllers: [hello]")
    then (config2
            [Some (controller2 (Some (exec_handler2 "/bin/reconciler")) None
                     [] None)]
            (Some (webhook2 (Some (webhook_tls "/etc/tls/tls.crt"
                                     "/etc/tls/tls.key")))),
          nil)
    else (c, errors.New "yaml: did not find expected node content")
|}.

End sample.

(** ** Properties of the validation *)

(** [s] parses as a duration: [time.ParseDuration] returns a nil error. *)
Definition parses {time_api : time.API} (s : string) : Prop :=
  (time.ParseDuration s).2 = nil.

(** The check that every duration field goes through: the empty string
    passes, any other string has to parse. *)
Definition duration_ok {time_api : time.API} (s : string) : Prop :=
  s = "" ∨ parses s.

(** The names of the controllers of a configuration, in order; a nil
    entry has none. *)
Definition controller_names (c : Config.t) : list string :=
  ControllerConfig.Name <$> omap id (Config.Controllers c).

(** A handler config that sets exactly one variant, with what that
    variant cannot do without: a command, a URL, a function. *)
Definition one_variant (c : HandlerConfig.t) : Prop :=
  match HandlerConfig.Exec c, HandlerConfig.HTTP c, HandlerConfig.Func c with
  | Some exec, None, None => ExecHandlerConfig.Command exec ≠ ""
  | None, Some http, None => HTTPHandlerConfig.URL http ≠ ""
  | None, None, Some func => is_Some (FuncHandlerConfig.Handler func)
  | _, _, _ => False
  end.

(** An entry of [Controllers] that is a controller which validates. *)
Definition valid_entry {time_api : time.API}
    (entry : option ControllerConfig.t) : Prop :=
  ∃ controller, entry = Some controller
                ∧ ControllerConfig.Validate controller = nil.

(** The same for the second revision. *)
Definition valid_entry2 {time_api : time.API} {os_api : os.API}
    (entry : option Rev2.ControllerConfig.t) : Prop :=
  ∃ controller, entry = Some controller
                ∧ Rev2.ControllerConfig.Validate controller = nil.

(** [os.Stat] finds the file. *)
Definition exists_file {os_api : os.API} (name : string) : Prop :=
  os.Stat name = nil.

(** Splits on every test that the goal makes, innermost first. *)
Ltac split_checks :=
  unfold if_err, errors.New, fmt.Errorf, nil in *;
  repeat first
    [ case_bool_decide
    | match goal with
      | |- context [match ?x with _ => _ end] =>
          lazymatch x with
          | context [match _ with _ => _ end] => fail
          | _ => destruct x eqn:?
          end
      end ];
  simplify_eq/=.

Section error_flow.

Context {A : Type}.

Lemma not_nil_is_Some (e : error) : e ≠ nil → is_Some e.
Proof. by destruct e. Qed.

Lemma append_empty_r (s : string) : s +:+ "" = s.
Proof.
  induction s as [|c s IH]; [reflexivity|].
  change (String c (s +:+ "") = String c s). by rewrite IH.
Qed.

Lemma if_err_nil (e : error) (r : error → error) (k : error) :
  (∀ text, r (Some text) ≠ nil) →
  if_err e r k = nil ↔ e = nil ∧ k = nil.
Proof.
  intros Hr. unfold if_err, nil in *. destruct e as [text|]; [|naive_solver].
  specialize (Hr text). naive_solver.
Qed.

Lemma if_err_is_Some (e : error) (r : error → error) (k : error) :
  (∀ text, is_Some (r (Some text))) →
  is_Some (if_err e r k) ↔ is_Some e ∨ is_Some k.
Proof.
  intros Hr. unfold if_err. destruct e as [text|].
  - specialize (Hr text). naive_solver.
  - split; [by right|]. intros [[? [=]]|?]; done.
Qed.

(** A loop whose body fails on exactly the elements outside [P] runs
    to its end exactly on the lists inside [P]. *)
Lemma range_err_nil (body : nat → A → error) (P : A → Prop) :
  (∀ i x, body i x = nil ↔ P x) →
  ∀ xs i, range_err body i xs = nil ↔ Forall P xs.
Proof.
  intros Hbody xs. induction xs as [|x xs IH]; intros i; simpl.
  - split; [constructor | done].
  - rewrite Forall_cons, <- (Hbody i x), <- (IH (S i)).
    unfold if_err, nil. destruct (body i x); naive_solver.
Qed.

End error_flow.

Section validation.

Context {time_api : time.API}.

Lemma ExecHandlerConfig_Validate_nil (c : ExecHandlerConfig.t) :
  ExecHandlerConfig.Validate c = nil
  ↔ ExecHandlerConfig.Command c ≠ "" ∧ duration_ok (ExecHandlerConfig.Timeout c).
Proof.
  unfold ExecHandlerConfig.Validate, duration_ok, parses.
  split_checks; naive_solver.
Qed.

Lemma HTTPHanlderTLSConfig_Validate_nil (c : HTTPHanlderTLSConfig.t) :
  HTTPHanlderTLSConfig.Validate c = nil
  ↔ HTTPHanlderTLSConfig.CertFile c = "" ∧ HTTPHanlderTLSConfig.KeyFile c = "".
Proof.
  unfold HTTPHanlderTLSConfig.Validate. split_checks; naive_solver.
Qed.

Lemma HTTPHandlerConfig_Validate_nil (c : HTTPHandlerConfig.t) :
  HTTPHandlerConfig.Validate c = nil
  ↔ HTTPHandlerConfig.URL c ≠ ""
    ∧ (∀ tls, HTTPHandlerConfig.TLS c = Some tls →
              HTTPHanlderTLSConfig.Validate tls = nil)
    ∧ duration_ok (HTTPHandlerConfig.Timeout c).
Proof.
  unfold HTTPHandlerConfig.Validate, duration_ok, parses.
  split_checks; naive_solver.
Qed.

Lemma SyncerConfig_Validate_nil (c : SyncerConfig.t) :
  SyncerConfig.Validate c = nil ↔ duration_ok (SyncerConfig.Interval c).
Proof.
  unfold SyncerConfig.Validate, duration_ok, parses.
  split_checks; naive_solver.
Qed.

Lemma ReconcilerConfig_Validate_nil (c : ReconcilerConfig.t) :
  ReconcilerConfig.Validate c = nil
  ↔ duration_ok (ReconcilerConfig.RequeueAfter c)
    ∧ HandlerConfig.Validate (ReconcilerConfig.HandlerConfig c) = nil.
Proof.
  unfold ReconcilerConfig.Validate, duration_ok, parses.
  generalize (HandlerConfig.Validate (ReconcilerConfig.HandlerConfig c)).
  intros e. split_checks; naive_solver.
Qed.

Lemma FuncHandlerConfig_Validate_nil (c : FuncHandlerConfig.t) :
  FuncHandlerConfig.Validate c = nil ↔ is_Some (FuncHandlerConfig.Handler c).
Proof.
  unfold FuncHandlerConfig.Validate, errors.New, nil.
  destruct (FuncHandlerConfig.Handler c); split; done.
Qed.

(** What [HandlerConfig.Validate] returns, by the variants that are set. *)
Lemma HandlerConfig_Validate_cases (c : HandlerConfig.t) :
  match HandlerConfig.Exec c, HandlerConfig.HTTP c, HandlerConfig.Func c with
  | None, None, None =>
      HandlerConfig.Validate c = errors.New "handler must be specified"
  | Some exec, None, None =>
      HandlerConfig.Validate c = ExecHandlerConfig.Validate exec
  | None, Some http, None =>
      HandlerConfig.Validate c = HTTPHandlerConfig.Validate http
  | None, None, Some func =>
      HandlerConfig.Validate c = FuncHandlerConfig.Validate func
  | _, _, _ =>
      HandlerConfig.Validate c
      = errors.New "exactly one handler must be specified"
  end.
Proof.
  unfold HandlerConfig.Validate, HandlerConfig.specified.
  destruct (HandlerConfig.Exec c) as [exec|],
    (HandlerConfig.HTTP c) as [http|], (HandlerConfig.Func c) as [func|];
    simpl; try reflexivity.
  - by destruct (ExecHandlerConfig.Validate exec).
  - by destruct (HTTPHandlerConfig.Validate http).
  - by destruct (FuncHandlerConfig.Validate func).
Qed.

(** No message of [HandlerConfig.Validate] starts with the letter [f]. *)
Lemma HandlerConfig_Validate_text (c : HandlerConfig.t) (text rest : string) :
  HandlerConfig.Validate c = Some text → text ≠ String "f" rest.
Proof.
  unfold HandlerConfig.Validate, ExecHandlerConfig.Validate,
    HTTPHandlerConfig.Validate, HTTPHanlderTLSConfig.Validate,
    FuncHandlerConfig.Validate.
  split_checks; intros [= <-]; discriminate.
Qed.

End validation.

Section controllers.

Context {time_api : time.API}.

Lemma ReferenceConfig_Validate_nil (c : ReferenceConfig.t) :
  ReferenceConfig.Validate c = nil
  ↔ schema.GroupVersionKind.Empty (ReferenceConfig.GroupVersionKind c) = false
    ∧ ReferenceConfig.NameFieldPath c ≠ "".
Proof. unfold ReferenceConfig.Validate. split_checks; naive_solver. Qed.

Lemma DependentConfig_Validate_nil (c : DependentConfig.t) :
  DependentConfig.Validate c = nil ↔ DependentConfig.Empty c = false.
Proof.
  unfold DependentConfig.Validate, DependentConfig.Empty.
  split_checks; naive_solver.
Qed.

(** The configurations that [ControllerConfig.Validate] accepts. *)
Lemma ControllerConfig_Validate_nil (c : ControllerConfig.t) :
  ControllerConfig.Validate c = nil
  ↔ ControllerConfig.Name c ≠ ""
    ∧ schema.GroupVersionKind.Empty (ControllerConfig.Resource c) = false
    ∧ Forall (λ ref, ReferenceConfig.Validate ref = nil)
        (ControllerConfig.References c)
    ∧ Forall (λ dep, DependentConfig.Validate dep = nil)
        (ControllerConfig.Dependents c)
    ∧ (∃ reconciler,
          ControllerConfig.Reconciler c = Some reconciler
          ∧ ReconcilerConfig.Validate reconciler = nil)
    ∧ (∀ finalizer, ControllerConfig.Finalizer c = Some finalizer →
          HandlerConfig.Validate finalizer = nil)
    ∧ (∀ syncer, ControllerConfig.Syncer c = Some syncer →
          SyncerConfig.Validate syncer = nil).
Proof.
  unfold ControllerConfig.Validate.
  case_bool_decide; [unfold errors.New, nil; naive_solver|].
  destruct (schema.GroupVersionKind.Empty _);
    [unfold errors.New, nil; naive_solver|].
  rewrite !if_err_nil by done.
  rewrite (range_err_nil _ (λ ref, ReferenceConfig.Validate ref = nil)); last first.
  { intros i ref. rewrite if_err_nil by done. naive_solver. }
  rewrite (range_err_nil _ (λ dep, DependentConfig.Validate dep = nil)); last first.
  { intros i dep. rewrite DependentConfig_Validate_nil.
    destruct (DependentConfig.Empty dep); unfold fmt.Errorf, nil; naive_solver. }
  destruct (ControllerConfig.Reconciler c) as [reconciler|];
    [|unfold errors.New, nil; naive_solver].
  rewrite !if_err_nil by done.
  destruct (ControllerConfig.Finalizer c), (ControllerConfig.Syncer c);
    naive_solver.
Qed.

(** The controller loop runs to its end exactly when every entry is a
    controller that validates. *)
Lemma range_controllers_nil (controllers : list (option ControllerConfig.t)) :
  ∀ i, Config.range_controllers i controllers = Returns nil
       ↔ Forall (λ entry, ∃ controller, entry = Some controller
                   ∧ ControllerConfig.Validate controller = nil) controllers.
Proof.
  induction controllers as [|[controller|] rest IH]; intros i; simpl.
  - split; [constructor | done].
  - rewrite Forall_cons, <- (IH (S i)).
    destruct (ControllerConfig.Validate controller) eqn:Hc;
      unfold fmt.Errorf, nil in *; naive_solver.
  - rewrite Forall_cons. naive_solver.
Qed.

(** The loop panics only on a nil entry. *)
Lemma range_controllers_Panics (controllers : list (option ControllerConfig.t)) :
  ∀ i, Config.range_controllers i controllers = Panics → None ∈ controllers.
Proof.
  induction controllers as [|[controller|] rest IH]; intros i; simpl.
  - done.
  - destruct (ControllerConfig.Validate controller); [done|].
    intros Hp. right. by eapply IH.
  - intros _. left.
Qed.

(** The configurations that [Config.Validate] accepts. *)
Lemma Config_Validate_nil (c : Config.t) :
  Config.Validate c = Returns nil
  ↔ Forall (λ entry, ∃ controller, entry = Some controller
              ∧ ControllerConfig.Validate controller = nil)
      (Config.Controllers c)
    ∧ (∀ webhook, Config.Webhook c = Some webhook →
          WebhookConfig.Validate webhook = nil)
    ∧ (∀ metrics, Config.Metrics c = Some metrics →
          MetricsConfig.Validate metrics = nil).
Proof.
  unfold Config.Validate. rewrite <- (range_controllers_nil _ 0).
  destruct (Config.range_controllers 0 (Config.Controllers c)) as [[text|]|];
    [unfold nil; naive_solver| |unfold nil; naive_solver].
  split.
  - intros [= Hnil]. revert Hnil. rewrite !if_err_nil by done.
    destruct (Config.Webhook c), (Config.Metrics c); naive_solver.
  - intros (_ & Hw & Hm). f_equal. rewrite !if_err_nil by done.
    destruct (Config.Webhook c), (Config.Metrics c); naive_solver.
Qed.

End controllers.

(** ** The claims of the specification *)

Section claims.

Context {time_api : time.API}.

(** C3.  [HandlerConfig.Validate] returns the error
    "handler must be specified" when none of [Exec], [HTTP], [Func] is
    set and the error "exactly one handler must be specified" when two
    or three of them are set; when exactly one of them is set it
    returns what the [Validate] of that variant returns, hence [nil]
    if and only if the variant validates. *)
Theorem HandlerConfig_Validate_exactly_one (c : HandlerConfig.t) :
  match HandlerConfig.Exec c, HandlerConfig.HTTP c, HandlerConfig.Func c with
  | None, None, None =>
      HandlerConfig.Validate c = errors.New "handler must be specified"
  | Some exec, None, None =>
      HandlerConfig.Validate c = ExecHandlerConfig.Validate exec
      ∧ (HandlerConfig.Validate c = nil ↔ ExecHandlerConfig.Validate exec = nil)
  | None, Some http, None =>
      HandlerConfig.Validate c = HTTPHandlerConfig.Validate http
      ∧ (HandlerConfig.Validate c = nil ↔ HTTPHandlerConfig.Validate http = nil)
  | None, None, Some func =>
      HandlerConfig.Validate c = FuncHandlerConfig.Validate func
      ∧ (HandlerConfig.Validate c = nil ↔ FuncHandlerConfig.Validate func = nil)
  | _, _, _ =>
      HandlerConfig.Validate c
      = errors.New "exactly one handler must be specified"
  end.
Proof.
  pose proof (HandlerConfig_Validate_cases c) as Hcases.
  destruct (HandlerConfig.Exec c), (HandlerConfig.HTTP c),
    (HandlerConfig.Func c); try done; by rewrite Hcases.
Qed.

(** C7.  The four duration fields go through the same check
    [duration_ok]: the empty string passes, a non-empty string passes
    if and only if [time.ParseDuration] parses it.  [SyncerConfig]
    validates exactly when its interval passes; [ReconcilerConfig],
    [ExecHandlerConfig] and [HTTPHandlerConfig] validate exactly when
    their duration passes and their other checks do; and each of the
    four returns an error whenever its duration is a non-empty string
    that does not parse. *)
Theorem duration_fields_validated_alike :
  (∀ c : SyncerConfig.t,
      (SyncerConfig.Validate c = nil ↔ duration_ok (SyncerConfig.Interval c))
      ∧ (¬ duration_ok (SyncerConfig.Interval c) →
         is_Some (SyncerConfig.Validate c)))
  ∧ (∀ c : ReconcilerConfig.t,
      (ReconcilerConfig.Validate c = nil
       ↔ duration_ok (ReconcilerConfig.RequeueAfter c)
         ∧ HandlerConfig.Validate (ReconcilerConfig.HandlerConfig c) = nil)
      ∧ (¬ duration_ok (ReconcilerConfig.RequeueAfter c) →
         is_Some (ReconcilerConfig.Validate c)))
  ∧ (∀ c : ExecHandlerConfig.t,
      (ExecHandlerConfig.Validate c = nil
       ↔ duration_ok (ExecHandlerConfig.Timeout c)
         ∧ ExecHandlerConfig.Command c ≠ "")
      ∧ (¬ duration_ok (ExecHandlerConfig.Timeout c) →
         is_Some (ExecHandlerConfig.Validate c)))
  ∧ (∀ c : HTTPHandlerConfig.t,
      (HTTPHandlerConfig.Validate c = nil
       ↔ duration_ok (HTTPHandlerConfig.Timeout c)
         ∧ HTTPHandlerConfig.URL c ≠ ""
         ∧ (∀ tls, HTTPHandlerConfig.TLS c = Some tls →
                   HTTPHanlderTLSConfig.Validate tls = nil))
      ∧ (¬ duration_ok (HTTPHandlerConfig.Timeout c) →
         is_Some (HTTPHandlerConfig.Validate c))).
Proof.
  split_and!; intros c; (split; [|intros Hbad; apply not_nil_is_Some]).
  - apply SyncerConfig_Validate_nil.
  - by rewrite SyncerConfig_Validate_nil.
  - apply ReconcilerConfig_Validate_nil.
  - rewrite ReconcilerConfig_Validate_nil. naive_solver.
  - rewrite ExecHandlerConfig_Validate_nil. naive_solver.
  - rewrite ExecHandlerConfig_Validate_nil. naive_solver.
  - rewrite HTTPHandlerConfig_Validate_nil. naive_solver.
  - rewrite HTTPHandlerConfig_Validate_nil. naive_solver.
Qed.

(** C4.  The reconciler is mandatory, the finalizer and the syncer are
    optional: [ControllerConfig.Validate] returns an error whenever
    [Reconciler] is nil; and it returns [nil] on every controller
    config with a non-empty [Name], a non-empty [Resource], references
    and dependents that all validate and a reconciler that validates,
    when [Finalizer] and [Syncer] are both nil. *)
Theorem ControllerConfig_Validate_reconciler_mandatory (c : ControllerConfig.t) :
  (ControllerConfig.Reconciler c = None →
     is_Some (ControllerConfig.Validate c))
  ∧ (∀ reconciler,
       ControllerConfig.Name c ≠ "" →
       schema.GroupVersionKind.Empty (ControllerConfig.Resource c) = false →
       Forall (λ ref, ReferenceConfig.Validate ref = nil)
         (ControllerConfig.References c) →
       Forall (λ dep, DependentConfig.Validate dep = nil)
         (ControllerConfig.Dependents c) →
       ControllerConfig.Reconciler c = Some reconciler →
       ReconcilerConfig.Validate reconciler = nil →
       ControllerConfig.Finalizer c = None →
       ControllerConfig.Syncer c = None →
       ControllerConfig.Validate c = nil).
Proof.
  split.
  - intros Hnone. apply not_nil_is_Some.
    rewrite ControllerConfig_Validate_nil, Hnone. naive_solver.
  - intros reconciler Hname Hres Hrefs Hdeps Hrec Hvalid Hfin Hsync.
    apply ControllerConfig_Validate_nil. rewrite Hfin, Hsync. naive_solver.
Qed.

(** C9.  [WebhookHandlerConfig.Validate] looks at the resource and
    the validator only: it returns [nil] on every webhook handler
    config whose [Resource] is not empty and whose [Validator] is nil
    or validates, whatever [Mutator] and [Injector] hold; replacing
    these two fields never changes its result. *)
Theorem WebhookHandlerConfig_Validate_ignores_mutator_injector
    (c : WebhookHandlerConfig.t) :
  schema.GroupVersionKind.Empty (WebhookHandlerConfig.Resource c) = false →
  (∀ validator, WebhookHandlerConfig.Validator c = Some validator →
                HandlerConfig.Validate validator = nil) →
  WebhookHandlerConfig.Validate c = nil
  ∧ ∀ mutator injector,
      WebhookHandlerConfig.Validate
        {| WebhookHandlerConfig.Resource := WebhookHandlerConfig.Resource c;
           WebhookHandlerConfig.Validator := WebhookHandlerConfig.Validator c;
           WebhookHandlerConfig.Mutator := mutator;
           WebhookHandlerConfig.Injector := injector |} = nil.
Proof.
  intros Hres Hval.
  assert (match WebhookHandlerConfig.Validator c with
          | Some validator => HandlerConfig.Validate validator
          | None => nil
          end = nil) as Hnil.
  { destruct (WebhookHandlerConfig.Validator c); eauto. }
  unfold WebhookHandlerConfig.Validate. simpl. by rewrite Hres, Hnil.
Qed.

(** C10.  [ReferenceConfig.Validate] returns an error exactly when the
    GroupVersionKind is empty or [NameFieldPath] is the empty string;
    so every reference of a controller config on which
    [ControllerConfig.Validate] returns [nil] has a non-empty
    GroupVersionKind and a non-empty [NameFieldPath]. *)
Theorem ReferenceConfig_Validate_well_formed :
  (∀ ref : ReferenceConfig.t,
      is_Some (ReferenceConfig.Validate ref)
      ↔ schema.GroupVersionKind.Empty (ReferenceConfig.GroupVersionKind ref)
          = true
        ∨ ReferenceConfig.NameFieldPath ref = "")
  ∧ (∀ (c : ControllerConfig.t) (ref : ReferenceConfig.t),
      ControllerConfig.Validate c = nil →
      ref ∈ ControllerConfig.References c →
      schema.GroupVersionKind.Empty (ReferenceConfig.GroupVersionKind ref)
        = false
      ∧ ReferenceConfig.NameFieldPath ref ≠ "").
Proof.
  split.
  - intros ref. unfold ReferenceConfig.Validate, errors.New, nil.
    destruct (schema.GroupVersionKind.Empty _); [naive_solver|].
    case_bool_decide; split; naive_solver.
  - intros c ref Hc Href.
    apply ControllerConfig_Validate_nil in Hc as (_ & _ & Hrefs & _).
    rewrite Forall_forall in Hrefs.
    by apply ReferenceConfig_Validate_nil, Hrefs.
Qed.

(** C5.  A webhook section needs a server certificate: on every
    configuration whose [Webhook] is set and has a nil [TLS], or a
    [TLS] whose [CertFile] or [KeyFile] is the empty string,
    [WebhookConfig.Validate] returns an error and [Config.Validate]
    never returns [nil]: when it returns, it returns an error, and it
    does not return only when an entry of [Controllers] is a nil
    pointer, on which it panics. *)
Theorem Config_Validate_webhook_certificate_mandatory
    (c : Config.t) (webhook : WebhookConfig.t) :
  Config.Webhook c = Some webhook →
  (WebhookConfig.TLS webhook = None
   ∨ ∃ tls, WebhookConfig.TLS webhook = Some tls
            ∧ (WebhookTLSConfig.CertFile tls = ""
               ∨ WebhookTLSConfig.KeyFile tls = "")) →
  is_Some (WebhookConfig.Validate webhook)
  ∧ Config.Validate c ≠ Returns nil
  ∧ match Config.Validate c with
    | Returns err => is_Some err
    | Panics => None ∈ Config.Controllers c
    end.
Proof.
  intros Hwebhook Htls.
  assert (is_Some (WebhookConfig.Validate webhook)) as Hw.
  { unfold WebhookConfig.Validate, WebhookTLSConfig.Validate.
    destruct Htls as [->|(tls & -> & [Hcert|Hkey])]; [done| |].
    - rewrite Hcert. done.
    - rewrite Hkey. by case_bool_decide. }
  assert (Config.Validate c ≠ Returns nil) as Hc.
  { rewrite Config_Validate_nil. intros (_ & Hweb & _).
    rewrite (Hweb _ Hwebhook) in Hw. by destruct Hw. }
  split_and!; [done..|].
  destruct (Config.Validate c) as [[text|]|] eqn:Hv; [done|done|].
  unfold Config.Validate in Hv.
  destruct (Config.range_controllers 0 (Config.Controllers c))
    as [[?|]|] eqn:Hrange; try done.
  by eapply range_controllers_Panics.
Qed.

(** C6, as amended.  On every configuration on which [Config.Validate]
    returns [nil], every entry of [Controllers] is a controller with a
    non-empty [Name]; the names need not differ from one another. *)
Theorem Config_Validate_names_non_empty (c : Config.t) :
  Config.Validate c = Returns nil →
  Forall (λ entry, ∃ controller, entry = Some controller
            ∧ ControllerConfig.Name controller ≠ "")
    (Config.Controllers c)
  ∧ Forall (λ name, name ≠ "") (controller_names c).
Proof.
  rewrite Config_Validate_nil. intros (Hcs & _ & _).
  unfold controller_names. induction Hcs as [|entry rest Hentry _ IH].
  - split; constructor.
  - destruct Hentry as (controller & -> & Hvalid).
    apply ControllerConfig_Validate_nil in Hvalid as (Hname & _).
    destruct IH as [IH1 IH2]. split; constructor; eauto.
Qed.

(** C1, on the code as it stands.  [HTTPHanlderTLSConfig.Validate]
    tests [!= ""] where its messages say "must be specified": it
    returns the error "cert file must be specified" on a TLS block
    that names a certificate and a key, and [nil] on a block that
    names neither; [HTTPHandlerConfig.Validate] passes both answers
    on. *)
Theorem HTTPHanlderTLSConfig_Validate_rejects_specified_files :
  HTTPHanlderTLSConfig.Validate sample.tls_files
    = errors.New "cert file must be specified"
  ∧ HTTPHanlderTLSConfig.Validate sample.tls_no_files = nil
  ∧ HTTPHandlerConfig.Validate
      (sample.http "https://handler.example.com/" (Some sample.tls_files))
    = errors.New "tls: cert file must be specified"
  ∧ HTTPHandlerConfig.Validate
      (sample.http "https://handler.example.com/" (Some sample.tls_no_files))
    = nil.
Proof. split_and!; reflexivity. Qed.

Context {os_api : os.API}.

(** C2.  [InjectorConfig.Validate] requires the verification key file:
    when [os.Stat] of [VerifyKeyFile] fails it returns the error
    "failed to read verification key file: ..." built from the error
    of [os.Stat]; when [os.Stat] succeeds it returns what
    [HandlerConfig.Validate] returns on the embedded handler config;
    and it returns an error of that "failed to read" form exactly when
    [os.Stat] fails. *)
Theorem InjectorConfig_Validate_requires_key_file (c : InjectorConfig.t) :
  match os.Stat (InjectorConfig.VerifyKeyFile c) with
  | Some text =>
      InjectorConfig.Validate c
      = Some ("failed to read verification key file: " +:+ text)
  | None =>
      InjectorConfig.Validate c
      = HandlerConfig.Validate (InjectorConfig.HandlerConfig c)
  end
  ∧ (is_Some (os.Stat (InjectorConfig.VerifyKeyFile c))
     ↔ ∃ text, InjectorConfig.Validate c
               = Some ("failed to read verification key file: " +:+ text)).
Proof.
  unfold InjectorConfig.Validate, if_err, fmt.Errorf.
  destruct (os.Stat (InjectorConfig.VerifyKeyFile c)) as [text|]; simpl.
  - rewrite append_empty_r. split; [done|]. split; eauto.
  - split; [done|]. split; [by intros [? [=]]|].
    intros [text Htext].
    destruct (HandlerConfig_Validate_text _ _ _ Htext eq_refl).
Qed.

Context {ioutil_api : ioutil.API} {yaml_api : yaml.API}.

(** C8.  Every configuration that [LoadFile] returns is validated:
    when [LoadFile p] returns a non-nil [*Config], the error it
    returns with it is [nil] and [Config.Validate] returns [nil] on
    that config ([Config.Validate] consults [time.ParseDuration] only,
    never the file system, so a second call gives the answer of the
    first).  When [ioutil.ReadFile] fails, when [yaml.Unmarshal] fails
    and when [Config.Validate] returns an error, [LoadFile] returns a
    nil config together with that error. *)
Theorem LoadFile_returns_validated (p : string) :
  (∀ c err, LoadFile p = Returns (Some c, err) →
            err = nil ∧ Config.Validate c = Returns nil)
  ∧ (is_Some (ioutil.ReadFile p).2 →
     LoadFile p = Returns (None, (ioutil.ReadFile p).2))
  ∧ ((ioutil.ReadFile p).2 = nil →
     is_Some (yaml.Unmarshal (ioutil.ReadFile p).1 Config.zero).2 →
     LoadFile p
     = Returns (None, (yaml.Unmarshal (ioutil.ReadFile p).1 Config.zero).2))
  ∧ (∀ err,
     (ioutil.ReadFile p).2 = nil →
     (yaml.Unmarshal (ioutil.ReadFile p).1 Config.zero).2 = nil →
     Config.Validate (yaml.Unmarshal (ioutil.ReadFile p).1 Config.zero).1
       = Returns err →
     is_Some err →
     LoadFile p = Returns (None, err)).
Proof.
  unfold LoadFile.
  destruct (ioutil.ReadFile p) as [buf [rtext|]]; simpl;
    [by split_and!; intros; simplify_eq/=|].
  destruct (yaml.Unmarshal buf Config.zero) as [c [utext|]]; simpl;
    [by split_and!; intros; simplify_eq/=|].
  destruct (Config.Validate c) as [[vtext|]|] eqn:Hv;
    split_and!; intros;
    repeat match goal with
           | Hsome : is_Some None |- _ => by destruct Hsome
           end;
    by simplify_eq/=.
Qed.

End claims.

(** ** The theorems on the sample environment *)

(** Whatever [time.ParseDuration] does, the configuration with two
    controllers named "hello" validates: it holds no duration. *)
Lemma config_same_name_validates {time_api : time.API} :
  Config.Validate sample.config_same_name = Returns nil.
Proof. reflexivity. Qed.

Lemma config_same_name_repeats :
  ¬ NoDup (controller_names sample.config_same_name).
Proof.
  change (¬ NoDup ["hello"; "hello"]). intros Hnodup.
  apply NoDup_cons in Hnodup as [Hnotin _]. apply Hnotin. left.
Qed.

(** C6, as stated, fails: [Config.Validate] returns [nil] on a
    configuration whose two controllers are both named "hello". *)
Lemma Config_Validate_accepts_repeated_name :
  ¬ (∀ c : Config.t,
       Config.Validate (time_api := sample.time_API) c = Returns nil →
       NoDup (controller_names c)).
Proof.
  intros Hclaim. apply config_same_name_repeats, Hclaim.
  apply config_same_name_validates.
Qed.

Lemma Config_Validate_names_non_empty_witness :
  Forall (λ entry, ∃ controller, entry = Some controller
            ∧ ControllerConfig.Name controller ≠ "")
    (Config.Controllers sample.config_same_name)
  ∧ Forall (λ name, name ≠ "") (controller_names sample.config_same_name).
Proof.
  apply (Config_Validate_names_non_empty (time_api := sample.time_API)).
  vm_compute. reflexivity.
Defined.

Lemma ControllerConfig_Validate_reconciler_mandatory_witness :
  is_Some (ControllerConfig.Validate (time_api := sample.time_API)
             (sample.controller "hello" None))
  ∧ ControllerConfig.Validate (time_api := sample.time_API)
      (sample.timed_controller "hello") = nil.
Proof.
  split.
  - apply (proj1 (ControllerConfig_Validate_reconciler_mandatory
                    (time_api := sample.time_API) (sample.controller "hello" None))).
    reflexivity.
  - apply (proj2 (ControllerConfig_Validate_reconciler_mandatory
                    (time_api := sample.time_API) (sample.timed_controller "hello"))
             (sample.reconciler "/bin/reconciler" "30s" "5m")).
    + discriminate.
    + reflexivity.
    + repeat constructor.
    + repeat constructor.
    + reflexivity.
    + vm_compute. reflexivity.
    + reflexivity.
    + reflexivity.
Defined.

Lemma WebhookHandlerConfig_Validate_ignores_mutator_injector_witness :
  is_Some (HandlerConfig.Validate (time_api := sample.time_API) sample.no_handler)
  ∧ is_Some (InjectorConfig.Validate (time_api := sample.time_API)
               (os_api := sample.os_API)
               (sample.injector sample.two_handlers "/etc/injector/verify.pem"))
  ∧ WebhookHandlerConfig.Validate (time_api := sample.time_API)
      sample.webhook_handler = nil.
Proof.
  split_and!; [by eexists | by eexists |].
  apply (WebhookHandlerConfig_Validate_ignores_mutator_injector
           (time_api := sample.time_API) sample.webhook_handler).
  - reflexivity.
  - intros validator [= <-]. vm_compute. reflexivity.
Defined.

Lemma ReferenceConfig_Validate_well_formed_witness :
  schema.GroupVersionKind.Empty
    (ReferenceConfig.GroupVersionKind sample.secret_reference) = false
  ∧ ReferenceConfig.NameFieldPath sample.secret_reference ≠ "".
Proof.
  apply (proj2 (ReferenceConfig_Validate_well_formed (time_api := sample.time_API))
           (sample.timed_controller "hello")).
  - vm_compute. reflexivity.
  - left.
Defined.

Lemma Config_Validate_webhook_certificate_mandatory_witness :
  let c := sample.config [Some (sample.timed_controller "hello")]
             (Some (sample.webhook None)) in
  is_Some (WebhookConfig.Validate (sample.webhook None))
  ∧ Config.Validate (time_api := sample.time_API) c ≠ Returns nil
  ∧ match Config.Validate (time_api := sample.time_API) c with
    | Returns err => is_Some err
    | Panics => None ∈ Config.Controllers c
    end.
Proof.
  apply (Config_Validate_webhook_certificate_mandatory
           (time_api := sample.time_API)).
  - reflexivity.
  - left. reflexivity.
Defined.

Lemma duration_fields_validated_alike_witness :
  SyncerConfig.Validate (time_api := sample.time_API)
    {| SyncerConfig.Interval := "" |} = nil
  ∧ SyncerConfig.Validate (time_api := sample.time_API)
      {| SyncerConfig.Interval := "30s" |} = nil
  ∧ is_Some (SyncerConfig.Validate (time_api := sample.time_API)
               {| SyncerConfig.Interval := "soon" |}).
Proof.
  pose proof (duration_fields_validated_alike (time_api := sample.time_API))
    as (Hsyncer & _).
  split_and!.
  - apply Hsyncer. left. reflexivity.
  - apply Hsyncer. right. reflexivity.
  - apply Hsyncer. intros [Hempty|Hparses]; discriminate.
Defined.

Lemma LoadFile_returns_validated_witness :
  Config.Validate (time_api := sample.time_API)
    (sample.config [Some (sample.timed_controller "hello")] None)
  = Returns nil
  ∧ LoadFile (time_api := sample.time_API) (ioutil_api := sample.ioutil_API)
      (yaml_api := sample.yaml_API) "missing.yaml"
    = Returns
        (None,
         errors.New "open missing.yaml: no such file or directory")
  ∧ LoadFile (time_api := sample.time_API) (ioutil_api := sample.ioutil_API)
      (yaml_api := sample.yaml_API) "broken.yaml"
    = Returns
        (None, errors.New "yaml: did not find expected node content").
Proof.
  split_and!.
  - apply (proj1 (LoadFile_returns_validated (time_api := sample.time_API)
                    (ioutil_api := sample.ioutil_API) (yaml_api := sample.yaml_API)
                    "config.yaml") _ nil).
    vm_compute. reflexivity.
  - apply (proj1 (proj2 (LoadFile_returns_validated (time_api := sample.time_API)
                    (ioutil_api := sample.ioutil_API) (yaml_api := sample.yaml_API)
                    "missing.yaml"))).
    vm_compute. by eexists.
  - apply (proj1 (proj2 (proj2 (LoadFile_returns_validated
                    (time_api := sample.time_API)
                    (ioutil_api := sample.ioutil_API) (yaml_api := sample.yaml_API)
                    "broken.yaml")))).
    + reflexivity.
    + vm_compute. by eexists.
Defined.

(** ** Further properties of the first revision *)

Section messages.

(** The two formats with an index, written out. *)
Lemma Errorf_index_error (before after : string) (i : nat) (text : string) :
  Some (before +:+ pretty i +:+ after +:+ text +:+ "")
  = Some (before +:+ pretty i +:+ after +:+ text).
Proof. by rewrite append_empty_r. Qed.

Lemma Errorf_controller (i : nat) (text : string) :
  fmt.Errorf "controller[%d]: %v" [fmt.D i; fmt.V (Some text)]
  = Some ("controller[" +:+ pretty i +:+ "]: " +:+ text).
Proof. exact (Errorf_index_error "controller[" "]: " i text). Qed.

Lemma Errorf_references (i : nat) (text : string) :
  fmt.Errorf "references[%d]: %v" [fmt.D i; fmt.V (Some text)]
  = Some ("references[" +:+ pretty i +:+ "]: " +:+ text).
Proof. exact (Errorf_index_error "references[" "]: " i text). Qed.

Lemma Errorf_prefix (before text : string) :
  Some (before +:+ text +:+ "") = Some (before +:+ text).
Proof. by rewrite append_empty_r. Qed.

End messages.

Section first_error.

Context {A : Type}.

(** A loop stops at the first element on which its body fails: the
    elements before it pass, the ones after it are not looked at. *)
Lemma range_err_first (body : nat → A → error) (before : list A) (x : A)
    (after : list A) (text : string) (i : nat) :
  (∀ j y, y ∈ before → body j y = nil) →
  body (i + length before) x = Some text →
  range_err body i (before ++ x :: after) = Some text.
Proof.
  revert i. induction before as [|y before IH]; intros i Hpass Hfail; simpl.
  - rewrite Nat.add_0_r in Hfail. by rewrite Hfail.
  - rewrite (Hpass i y) by left. simpl. apply IH.
    + intros j z Hz. apply Hpass. by right.
    + simpl in Hfail. by rewrite Nat.add_succ_r in Hfail.
Qed.

End first_error.

Section more_of_the_first_revision.

Context {time_api : time.API}.

Lemma range_controllers_first (before : list (option ControllerConfig.t))
    (controller : ControllerConfig.t) (after : list (option ControllerConfig.t))
    (text : string) (i : nat) :
  Forall valid_entry before →
  ControllerConfig.Validate controller = Some text →
  Config.range_controllers i (before ++ Some controller :: after)
  = Returns (Some ("controller[" +:+ pretty (i + length before) +:+ "]: "
                   +:+ text)).
Proof.
  intros Hbefore Hfail. revert i.
  induction Hbefore as [|entry before (valid & -> & Hvalid) _ IH]; intros i.
  - simpl. rewrite Hfail, Nat.add_0_r. by rewrite Errorf_controller.
  - simpl. rewrite Hvalid, IH. by rewrite Nat.add_succ_r.
Qed.

(** X1.  [Config.Validate] reports the first controller that does not
    validate: when the entries before it are controllers that validate
    and [ControllerConfig.Validate] returns the error [text] on it,
    [Config.Validate] returns "controller[i]: text" with [i] the index
    of that entry, whatever the later entries, the webhook and the
    metrics hold. *)
Theorem Config_Validate_reports_first_invalid_controller (c : Config.t)
    (before : list (option ControllerConfig.t)) (controller : ControllerConfig.t)
    (after : list (option ControllerConfig.t)) (text : string) :
  Config.Controllers c = (before ++ Some controller :: after)%list →
  Forall valid_entry before →
  ControllerConfig.Validate controller = Some text →
  Config.Validate c
  = Returns (Some ("controller[" +:+ pretty (length before) +:+ "]: "
                   +:+ text)).
Proof.
  intros Hcs Hbefore Hfail. unfold Config.Validate.
  by rewrite Hcs, (range_controllers_first _ _ _ text 0).
Qed.

Lemma range_controllers_Panics_iff
    (controllers : list (option ControllerConfig.t)) (i : nat) :
  Config.range_controllers i controllers = Panics
  ↔ ∃ before after, controllers = (before ++ None :: after)%list
                    ∧ Forall valid_entry before.
Proof.
  revert i. induction controllers as [|[controller|] rest IH]; intros i; simpl.
  - split; [done|]. intros (before & after & Heq & _).
    by destruct before.
  - destruct (ControllerConfig.Validate controller) as [text|] eqn:Hc.
    + split; [done|]. intros (before & after & Heq & Hvalid).
      destruct before as [|entry before]; simplify_eq/=.
      apply Forall_cons in Hvalid as [(valid & [= <-] & Hvalid) _].
      unfold nil in *. congruence.
    + rewrite IH. split.
      * intros (before & after & -> & Hvalid).
        exists (Some controller :: before), after. split; [done|].
        constructor; [by exists controller | done].
      * intros (before & after & Heq & Hvalid).
        destruct before as [|entry before]; simplify_eq/=.
        apply Forall_cons in Hvalid as [_ Hvalid]. eauto.
  - split; [|done]. intros _. exists [], rest. split; [done | constructor].
Qed.

(** X2.  [Config.Validate] panics exactly when the loop over
    [Controllers] reaches a nil entry, that is when a nil entry comes
    after controllers that all validate; a nil entry behind a
    controller that does not validate is never reached. *)
Theorem Config_Validate_panics_iff (c : Config.t) :
  Config.Validate c = Panics
  ↔ ∃ before after, Config.Controllers c = (before ++ None :: after)%list
                    ∧ Forall valid_entry before.
Proof.
  rewrite <- (range_controllers_Panics_iff _ 0). unfold Config.Validate.
  by destruct (Config.range_controllers 0 (Config.Controllers c)) as [[?|]|].
Qed.

End more_of_the_first_revision.

Section accepted_configurations.

Context {time_api : time.API}.

Lemma WebhookConfig_Validate_nil (c : WebhookConfig.t) :
  WebhookConfig.Validate c = nil
  ↔ ∃ tls, WebhookConfig.TLS c = Some tls
           ∧ WebhookTLSConfig.CertFile tls ≠ ""
           ∧ WebhookTLSConfig.KeyFile tls ≠ "".
Proof.
  unfold WebhookConfig.Validate, WebhookTLSConfig.Validate, errors.New, nil.
  destruct (WebhookConfig.TLS c) as [tls|]; [|split; [done|by intros (? & ? & _)]].
  rewrite if_err_nil by done.
  split.
  - intros [Htls _]. exists tls. repeat case_bool_decide; done.
  - intros (? & [= <-] & Hcert & Hkey). by rewrite !bool_decide_false.
Qed.

Lemma MetricsConfig_Validate_nil (c : MetricsConfig.t) :
  MetricsConfig.Validate c = nil ↔ MetricsConfig.Port c ≠ 0%Z.
Proof. unfold MetricsConfig.Validate. split_checks; naive_solver. Qed.

(** X3.  The configurations that [Config.Validate] accepts: it returns
    [nil] exactly when every entry of [Controllers] is a controller
    that validates, the webhook section, if there is one, has a TLS
    block with a non-empty [CertFile] and a non-empty [KeyFile], and
    the metrics section, if there is one, has a [Port] other than 0.
    No other field of the two sections is looked at: a negative port
    passes. *)
Theorem Config_Validate_accepts_iff (c : Config.t) :
  Config.Validate c = Returns nil
  ↔ Forall valid_entry (Config.Controllers c)
    ∧ (∀ webhook, Config.Webhook c = Some webhook →
         ∃ tls, WebhookConfig.TLS webhook = Some tls
                ∧ WebhookTLSConfig.CertFile tls ≠ ""
                ∧ WebhookTLSConfig.KeyFile tls ≠ "")
    ∧ (∀ metrics, Config.Metrics c = Some metrics →
         MetricsConfig.Port metrics ≠ 0%Z).
Proof.
  rewrite Config_Validate_nil.
  setoid_rewrite WebhookConfig_Validate_nil.
  by setoid_rewrite MetricsConfig_Validate_nil.
Qed.

(** [Config.Validate] never looks at the webhook handlers: with
    the controllers, the webhook TLS block and the metrics fixed, it
    returns the same for every [Host], [Port] and [Handlers] of the
    webhook section, so a handler that [WebhookHandlerConfig.Validate]
    rejects, or a nil entry of [Handlers], does not change its
    answer. *)
Theorem Config_Validate_ignores_webhook_handlers
    (controllers : list (option ControllerConfig.t))
    (tls : option WebhookTLSConfig.t) (metrics : option MetricsConfig.t)
    (host host' : string) (port port' : Z)
    (handlers handlers' : list (option WebhookHandlerConfig.t)) :
  Config.Validate
    {| Config.Controllers := controllers;
       Config.Webhook :=
         Some {| WebhookConfig.Host := host; WebhookConfig.Port := port;
                 WebhookConfig.TLS := tls;
                 WebhookConfig.Handlers := handlers |};
       Config.Metrics := metrics |}
  = Config.Validate
      {| Config.Controllers := controllers;
         Config.Webhook :=
           Some {| WebhookConfig.Host := host'; WebhookConfig.Port := port';
                   WebhookConfig.TLS := tls;
                   WebhookConfig.Handlers := handlers' |};
         Config.Metrics := metrics |}.
Proof. reflexivity. Qed.

(** X4.  With every controller valid, a webhook error comes before a
    metrics error: [Config.Validate] returns "webhook: text" when
    [WebhookConfig.Validate] returns the error [text], whatever the
    metrics section holds; and it returns
    "metrics: port must be specified" when the webhook section is
    absent or validates and the metrics section has port 0. *)
Theorem Config_Validate_webhook_before_metrics (c : Config.t) :
  Forall valid_entry (Config.Controllers c) →
  (∀ webhook text,
      Config.Webhook c = Some webhook →
      WebhookConfig.Validate webhook = Some text →
      Config.Validate c = Returns (Some ("webhook: " +:+ text)))
  ∧ (∀ metrics,
      (∀ webhook, Config.Webhook c = Some webhook →
                  WebhookConfig.Validate webhook = nil) →
      Config.Metrics c = Some metrics →
      MetricsConfig.Port metrics = 0%Z →
      Config.Validate c = Returns (Some "metrics: port must be specified")).
Proof.
  intros Hcs.
  pose proof (proj2 (range_controllers_nil (Config.Controllers c) 0) Hcs)
    as Hrange.
  unfold Config.Validate. rewrite Hrange. split.
  - intros webhook text -> Hw. rewrite Hw. simpl.
    f_equal. exact (Errorf_prefix "webhook: " text).
  - intros metrics Hw -> Hport.
    assert (match Config.Webhook c with
            | Some webhook => WebhookConfig.Validate webhook
            | None => nil
            end = nil) as ->.
    { destruct (Config.Webhook c); eauto. }
    unfold MetricsConfig.Validate. rewrite Hport. reflexivity.
Qed.

End accepted_configurations.

Section accepted_controllers.

Context {time_api : time.API}.

Lemma Empty_false (gvk : schema.GroupVersionKind.t) :
  schema.GroupVersionKind.Empty gvk = false
  ↔ schema.GroupVersionKind.Group gvk ≠ ""
    ∨ schema.GroupVersionKind.Version gvk ≠ ""
    ∨ schema.GroupVersionKind.Kind gvk ≠ "".
Proof.
  unfold schema.GroupVersionKind.Empty.
  destruct (schema.GroupVersionKind.Group gvk),
    (schema.GroupVersionKind.Version gvk), (schema.GroupVersionKind.Kind gvk);
    simpl; naive_solver.
Qed.

(** X5.  [ControllerConfig.Validate] reports the first reference that
    does not validate: on a controller config with a name and a
    resource, when the references before it validate and
    [ReferenceConfig.Validate] returns the error [text] on it, the
    result is "references[i]: text" with [i] its index, whatever the
    dependents and the handlers hold. *)
Theorem ControllerConfig_Validate_reports_first_invalid_reference
    (c : ControllerConfig.t) (before : list ReferenceConfig.t)
    (ref : ReferenceConfig.t) (after : list ReferenceConfig.t) (text : string) :
  ControllerConfig.Name c ≠ "" →
  schema.GroupVersionKind.Empty (ControllerConfig.Resource c) = false →
  ControllerConfig.References c = (before ++ ref :: after)%list →
  Forall (λ ref, ReferenceConfig.Validate ref = nil) before →
  ReferenceConfig.Validate ref = Some text →
  ControllerConfig.Validate c
  = Some ("references[" +:+ pretty (length before) +:+ "]: " +:+ text).
Proof.
  intros Hname Hres Hrefs Hbefore Hfail. unfold ControllerConfig.Validate.
  rewrite bool_decide_false, Hres, Hrefs by done.
  erewrite range_err_first; [done| |].
  - intros j y Hy. rewrite Forall_forall in Hbefore.
    by rewrite (Hbefore y Hy).
  - rewrite Hfail. simpl. apply Errorf_references.
Qed.

(** X6.  The dependents are checked before the reconciler: on a
    controller config with a name, a resource and references that all
    validate, when a dependent has an empty GroupVersionKind and the
    dependents before it do not, [ControllerConfig.Validate] returns
    "dependents[i] is empty" with [i] the index of that dependent,
    also when the reconciler is nil or does not validate. *)
Theorem ControllerConfig_Validate_reports_first_empty_dependent
    (c : ControllerConfig.t) (before : list DependentConfig.t)
    (dep : DependentConfig.t) (after : list DependentConfig.t) :
  ControllerConfig.Name c ≠ "" →
  schema.GroupVersionKind.Empty (ControllerConfig.Resource c) = false →
  Forall (λ ref, ReferenceConfig.Validate ref = nil)
    (ControllerConfig.References c) →
  ControllerConfig.Dependents c = (before ++ dep :: after)%list →
  Forall (λ dep, DependentConfig.Empty dep = false) before →
  DependentConfig.Empty dep = true →
  ControllerConfig.Validate c
  = Some ("dependents[" +:+ pretty (length before) +:+ "] is empty").
Proof.
  intros Hname Hres Hrefs Hdeps Hbefore Hempty.
  unfold ControllerConfig.Validate.
  rewrite bool_decide_false, Hres by done.
  assert (range_err
            (λ i ref,
               check err ← ReferenceConfig.Validate ref
                 fails fmt.Errorf "references[%d]: %v" [fmt.D i; fmt.V err];
               nil)
            0 (ControllerConfig.References c) = nil) as ->.
  { apply (range_err_nil _ (λ ref, ReferenceConfig.Validate ref = nil));
      [|done].
    intros i ref. rewrite if_err_nil by done. naive_solver. }
  rewrite Hdeps. simpl.
  erewrite range_err_first; [done| |].
  - intros j y Hy. rewrite Forall_forall in Hbefore.
    by rewrite (Hbefore y Hy).
  - by rewrite Hempty.
Qed.

Lemma HandlerConfig_Validate_one_variant (c : HandlerConfig.t) :
  HandlerConfig.Validate c = nil → one_variant c.
Proof.
  pose proof (HandlerConfig_Validate_cases c) as Hcases. unfold one_variant.
  destruct (HandlerConfig.Exec c) as [exec|],
    (HandlerConfig.HTTP c) as [http|], (HandlerConfig.Func c) as [func|];
    rewrite Hcases; try done.
  - by intros (? & _)%ExecHandlerConfig_Validate_nil.
  - by intros (? & _)%HTTPHandlerConfig_Validate_nil.
  - by intros ?%FuncHandlerConfig_Validate_nil.
Qed.

(** X7.  Validation establishes the exactly-one-of shape of the
    handlers it looks at: on every controller config that
    [ControllerConfig.Validate] accepts, the reconciler sets exactly
    one of exec, http and func, with a non-empty command, a non-empty
    URL or a non-nil function, and so does the finalizer when there
    is one. *)
Theorem ControllerConfig_Validate_handlers_one_variant (c : ControllerConfig.t) :
  ControllerConfig.Validate c = nil →
  (∃ reconciler, ControllerConfig.Reconciler c = Some reconciler
                 ∧ one_variant (ReconcilerConfig.HandlerConfig reconciler))
  ∧ (∀ finalizer, ControllerConfig.Finalizer c = Some finalizer →
                  one_variant finalizer).
Proof.
  intros (_ & _ & _ & _ & (reconciler & Hrec & Hvalid) & Hfin & _)
    %ControllerConfig_Validate_nil.
  apply ReconcilerConfig_Validate_nil in Hvalid as [_ Hvalid].
  split.
  - exists reconciler. split; [done|].
    by apply HandlerConfig_Validate_one_variant.
  - intros finalizer Hsome.
    by apply HandlerConfig_Validate_one_variant, Hfin.
Qed.

(** X8.  No handler config that [HandlerConfig.Validate] accepts has
    an http variant whose TLS block names a certificate file or a key
    file: in an accepted TLS block both paths are the empty string
    (only [CACertFile] is free). *)
Theorem HandlerConfig_Validate_http_tls_names_no_file (c : HandlerConfig.t)
    (http : HTTPHandlerConfig.t) (tls : HTTPHanlderTLSConfig.t) :
  HandlerConfig.Validate c = nil →
  HandlerConfig.HTTP c = Some http →
  HTTPHandlerConfig.TLS http = Some tls →
  HTTPHanlderTLSConfig.CertFile tls = ""
  ∧ HTTPHanlderTLSConfig.KeyFile tls = "".
Proof.
  intros Hvalid Hhttp Htls.
  pose proof (HandlerConfig_Validate_cases c) as Hcases.
  rewrite Hhttp in Hcases.
  destruct (HandlerConfig.Exec c), (HandlerConfig.Func c);
    rewrite Hcases in Hvalid; try done.
  apply HTTPHandlerConfig_Validate_nil in Hvalid as (_ & Htlsok & _).
  by apply HTTPHanlderTLSConfig_Validate_nil, Htlsok.
Qed.

(** X9.  Every dependent of a controller config that
    [ControllerConfig.Validate] accepts passes
    [DependentConfig.Validate], which the loop does not call: at least
    one of its group, version and kind is not the empty string.  The
    resource of the controller is non-empty in the same sense. *)
Theorem ControllerConfig_Validate_dependents_non_empty (c : ControllerConfig.t) :
  ControllerConfig.Validate c = nil →
  (∀ dep, dep ∈ ControllerConfig.Dependents c →
      DependentConfig.Validate dep = nil
      ∧ (schema.GroupVersionKind.Group (DependentConfig.GroupVersionKind dep) ≠ ""
         ∨ schema.GroupVersionKind.Version (DependentConfig.GroupVersionKind dep) ≠ ""
         ∨ schema.GroupVersionKind.Kind (DependentConfig.GroupVersionKind dep) ≠ ""))
  ∧ (schema.GroupVersionKind.Group (ControllerConfig.Resource c) ≠ ""
     ∨ schema.GroupVersionKind.Version (ControllerConfig.Resource c) ≠ ""
     ∨ schema.GroupVersionKind.Kind (ControllerConfig.Resource c) ≠ "").
Proof.
  intros (_ & Hres & _ & Hdeps & _)%ControllerConfig_Validate_nil.
  split; [|by apply Empty_false].
  intros dep Hdep. rewrite Forall_forall in Hdeps.
  specialize (Hdeps dep Hdep). split; [done|].
  by apply Empty_false, DependentConfig_Validate_nil.
Qed.

End accepted_controllers.

Section loading.

Context {time_api : time.API} {ioutil_api : ioutil.API} {yaml_api : yaml.API}.

(** X10.  What [LoadFile] gives back.  Whenever it returns, exactly
    one of the config and the error is nil.  It returns the config [c]
    exactly when the file is read, the document decodes into [c] and
    [Config.Validate] returns [nil] on [c].  It panics exactly when
    the file is read and decoded and [Config.Validate] panics on the
    decoded config. *)
Theorem LoadFile_config_or_error (p : string) :
  (∀ config err, LoadFile p = Returns (config, err) →
                 (config = None ↔ is_Some err))
  ∧ (∀ c, LoadFile p = Returns (Some c, nil)
          ↔ (ioutil.ReadFile p).2 = nil
            ∧ yaml.Unmarshal (ioutil.ReadFile p).1 Config.zero = (c, nil)
            ∧ Config.Validate c = Returns nil)
  ∧ (LoadFile p = Panics
     ↔ (ioutil.ReadFile p).2 = nil
       ∧ (yaml.Unmarshal (ioutil.ReadFile p).1 Config.zero).2 = nil
       ∧ Config.Validate (yaml.Unmarshal (ioutil.ReadFile p).1 Config.zero).1
         = Panics).
Proof.
  unfold LoadFile, nil.
  destruct (ioutil.ReadFile p) as [buf [rtext|]]; simpl;
    [split_and!; [intros ? ? [= <- <-]| |]; naive_solver|].
  destruct (yaml.Unmarshal buf Config.zero) as [c [utext|]]; simpl;
    [split_and!; [intros ? ? [= <- <-]| |]; naive_solver|].
  destruct (Config.Validate c) as [[vtext|]|] eqn:Hv;
    (split_and!; [intros ? ? [=]; subst| |]); try naive_solver.
  - intros c0. split; [done|]. intros (_ & [= <-] & Hnil). congruence.
  - intros c0. split; [done|]. intros (_ & [= <-] & Hnil). congruence.
Qed.

End loading.

(** ** Properties of the second revision *)

Section second_revision.

Context {time_api : time.API} {os_api : os.API}.

(** X11.  In the second revision [HTTPHanlderTLSConfig.Validate]
    accepts a TLS block exactly when every path it names exists:
    each of [CertFile], [KeyFile] and [CACertFile] is the empty string
    or a file that [os.Stat] finds.  A block that names nothing is
    accepted. *)
Theorem Rev2_HTTPHanlderTLSConfig_Validate_accepts_iff
    (c : HTTPHanlderTLSConfig.t) :
  Rev2.HTTPHanlderTLSConfig.Validate c = nil
  ↔ (HTTPHanlderTLSConfig.CertFile c = ""
     ∨ exists_file (HTTPHanlderTLSConfig.CertFile c))
    ∧ (HTTPHanlderTLSConfig.KeyFile c = ""
       ∨ exists_file (HTTPHanlderTLSConfig.KeyFile c))
    ∧ (HTTPHanlderTLSConfig.CACertFile c = ""
       ∨ exists_file (HTTPHanlderTLSConfig.CACertFile c)).
Proof.
  unfold Rev2.HTTPHanlderTLSConfig.Validate, exists_file.
  rewrite !if_err_nil by done. unfold nil.
  repeat case_bool_decide; naive_solver.
Qed.

(** X12.  The webhook TLS check of the second revision is the one of
    the first revision and two file lookups: it returns [nil] exactly
    when [WebhookTLSConfig.Validate] of the first revision does and
    [os.Stat] finds both the certificate and the key.  So the first
    revision accepts every block that the second accepts. *)
Theorem Rev2_WebhookTLSConfig_Validate_stricter (c : WebhookTLSConfig.t) :
  Rev2.WebhookTLSConfig.Validate c = nil
  ↔ WebhookTLSConfig.Validate c = nil
    ∧ exists_file (WebhookTLSConfig.CertFile c)
    ∧ exists_file (WebhookTLSConfig.KeyFile c).
Proof.
  unfold Rev2.WebhookTLSConfig.Validate, WebhookTLSConfig.Validate,
    exists_file, errors.New, nil.
  repeat case_bool_decide; try naive_solver.
  rewrite !if_err_nil by done. naive_solver.
Qed.

Lemma Rev2_HandlerConfig_Validate_cases (c : Rev2.HandlerConfig.t) :
  match Rev2.HandlerConfig.Exec c, Rev2.HandlerConfig.HTTP c with
  | None, None =>
      Rev2.HandlerConfig.Validate c = errors.New "handler must be specified"
  | Some exec, None =>
      Rev2.HandlerConfig.Validate c = ExecHandlerConfig.Validate exec
  | None, Some http =>
      Rev2.HandlerConfig.Validate c = Rev2.HTTPHandlerConfig.Validate http
  | Some _, Some _ =>
      Rev2.HandlerConfig.Validate c
      = errors.New "exactly one handler must be specified"
  end.
Proof.
  unfold Rev2.HandlerConfig.Validate.
  destruct (Rev2.HandlerConfig.Exec c) as [exec|],
    (Rev2.HandlerConfig.HTTP c) as [http|]; simpl; try reflexivity.
  - by destruct (ExecHandlerConfig.Validate exec).
  - by destruct (Rev2.HTTPHandlerConfig.Validate http).
Qed.

(** X13.  The two revisions validate a handler alike when no file is
    named: for an exec handler, and for an http handler whose TLS
    block is absent or has its three paths empty,
    [HandlerConfig.Validate] of the second revision returns what
    [HandlerConfig.Validate] of the first revision returns on the same
    handler with a nil [Func], error message included. *)
Theorem Rev2_HandlerConfig_Validate_agrees
    (exec : option ExecHandlerConfig.t) (http : option HTTPHandlerConfig.t) :
  (∀ h tls, http = Some h → HTTPHandlerConfig.TLS h = Some tls →
      HTTPHanlderTLSConfig.CertFile tls = ""
      ∧ HTTPHanlderTLSConfig.KeyFile tls = ""
      ∧ HTTPHanlderTLSConfig.CACertFile tls = "") →
  Rev2.HandlerConfig.Validate
    {| Rev2.HandlerConfig.Exec := exec; Rev2.HandlerConfig.HTTP := http |}
  = HandlerConfig.Validate
      {| HandlerConfig.Exec := exec; HandlerConfig.HTTP := http;
         HandlerConfig.Func := None |}.
Proof.
  intros Hnofile.
  pose proof (Rev2_HandlerConfig_Validate_cases
                {| Rev2.HandlerConfig.Exec := exec;
                   Rev2.HandlerConfig.HTTP := http |}) as H2.
  pose proof (HandlerConfig_Validate_cases
                {| HandlerConfig.Exec := exec; HandlerConfig.HTTP := http;
                   HandlerConfig.Func := None |}) as H1.
  simpl in H1, H2. destruct exec as [e|], http as [h|]; try congruence.
  rewrite H1, H2.
  unfold Rev2.HTTPHandlerConfig.Validate, HTTPHandlerConfig.Validate.
  destruct (HTTPHandlerConfig.TLS h) as [tls|] eqn:Htls; [|done].
  destruct (Hnofile h tls eq_refl Htls) as (Hcert & Hkey & Hca).
  unfold Rev2.HTTPHanlderTLSConfig.Validate, HTTPHanlderTLSConfig.Validate.
  by rewrite Hcert, Hkey, Hca.
Qed.

End second_revision.

Section second_revision_controllers.

Context {time_api : time.API} {os_api : os.API}.

(** X14.  The controller configs that the second revision accepts:
    [ControllerConfig.Validate] returns [nil] exactly when the name
    and the resource are non-empty and either the reconciler alone is
    set and validates, no dependent is empty and the syncer, if there
    is one, validates, or the observer alone is set and validates. *)
Theorem Rev2_ControllerConfig_Validate_accepts_iff
    (c : Rev2.ControllerConfig.t) :
  Rev2.ControllerConfig.Validate c = nil
  ↔ Rev2.ControllerConfig.Name c ≠ ""
    ∧ schema.GroupVersionKind.Empty (Rev2.ControllerConfig.Resource c) = false
    ∧ ((∃ reconciler,
           Rev2.ControllerConfig.Reconciler c = Some reconciler
           ∧ Rev2.ControllerConfig.Observer c = None
           ∧ Rev2.HandlerConfig.Validate reconciler = nil
           ∧ Forall (λ dep, schema.GroupVersionKind.Empty dep = false)
               (Rev2.ControllerConfig.Dependents c)
           ∧ (∀ syncer, Rev2.ControllerConfig.Syncer c = Some syncer →
                        SyncerConfig.Validate syncer = nil))
       ∨ (∃ observer,
             Rev2.ControllerConfig.Reconciler c = None
             ∧ Rev2.ControllerConfig.Observer c = Some observer
             ∧ Rev2.HandlerConfig.Validate observer = nil)).
Proof.
  unfold Rev2.ControllerConfig.Validate.
  case_bool_decide; [unfold errors.New, nil; naive_solver|].
  destruct (schema.GroupVersionKind.Empty _);
    [unfold errors.New, nil; naive_solver|].
  destruct (Rev2.ControllerConfig.Reconciler c) as [reconciler|],
    (Rev2.ControllerConfig.Observer c) as [observer|]; simpl.
  - unfold errors.New, nil. naive_solver.
  - rewrite !if_err_nil by done.
    rewrite (range_err_nil _ (λ dep, schema.GroupVersionKind.Empty dep = false));
      last first.
    { intros i dep. destruct (schema.GroupVersionKind.Empty dep);
        unfold fmt.Errorf, nil; naive_solver. }
    destruct (Rev2.ControllerConfig.Syncer c); naive_solver.
  - rewrite !if_err_nil by done. naive_solver.
  - unfold errors.New, nil. naive_solver.
Qed.

(** An observer controller of the second revision is validated
    without its dependents and its syncer: when the reconciler is nil,
    [ControllerConfig.Validate] returns the same for every list of
    dependents and every syncer, so an empty dependent or an interval
    that does not parse goes unnoticed. *)
Theorem Rev2_ControllerConfig_Validate_observer_skips_dependents
    (name : string) (resource : schema.GroupVersionKind.t)
    (observer : option Rev2.HandlerConfig.t)
    (dependents dependents' : list schema.GroupVersionKind.t)
    (syncer syncer' : option SyncerConfig.t) :
  Rev2.ControllerConfig.Validate
    {| Rev2.ControllerConfig.Name := name;
       Rev2.ControllerConfig.Resource := resource;
       Rev2.ControllerConfig.Dependents := dependents;
       Rev2.ControllerConfig.Reconciler := None;
       Rev2.ControllerConfig.Observer := observer;
       Rev2.ControllerConfig.Syncer := syncer |}
  = Rev2.ControllerConfig.Validate
      {| Rev2.ControllerConfig.Name := name;
         Rev2.ControllerConfig.Resource := resource;
         Rev2.ControllerConfig.Dependents := dependents';
         Rev2.ControllerConfig.Reconciler := None;
         Rev2.ControllerConfig.Observer := observer;
         Rev2.ControllerConfig.Syncer := syncer' |}.
Proof. reflexivity. Qed.

Lemma Rev2_range_controllers_nil
    (controllers : list (option Rev2.ControllerConfig.t)) :
  ∀ i, Rev2.Config.range_controllers i controllers = Returns nil
       ↔ Forall valid_entry2 controllers.
Proof.
  induction controllers as [|[controller|] rest IH]; intros i; simpl.
  - split; [constructor | done].
  - rewrite Forall_cons, <- (IH (S i)). unfold valid_entry2.
    destruct (Rev2.ControllerConfig.Validate controller) eqn:Hc;
      unfold fmt.Errorf, nil in *; naive_solver.
  - rewrite Forall_cons. unfold valid_entry2. naive_solver.
Qed.

(** X15.  The configurations that the second revision accepts:
    [Config.Validate] returns [nil] exactly when every entry of
    [Controllers] is a controller that validates and the webhook
    section, if there is one, has a TLS block whose [CertFile] and
    [KeyFile] are non-empty paths of files that [os.Stat] finds. *)
Theorem Rev2_Config_Validate_accepts_iff (c : Rev2.Config.t) :
  Rev2.Config.Validate c = Returns nil
  ↔ Forall valid_entry2 (Rev2.Config.Controllers c)
    ∧ (∀ webhook, Rev2.Config.Webhook c = Some webhook →
         ∃ tls, Rev2.WebhookConfig.TLS webhook = Some tls
                ∧ WebhookTLSConfig.CertFile tls ≠ ""
                ∧ WebhookTLSConfig.KeyFile tls ≠ ""
                ∧ exists_file (WebhookTLSConfig.CertFile tls)
                ∧ exists_file (WebhookTLSConfig.KeyFile tls)).
Proof.
  assert (∀ webhook, Rev2.WebhookConfig.Validate webhook = nil
            ↔ ∃ tls, Rev2.WebhookConfig.TLS webhook = Some tls
                     ∧ WebhookTLSConfig.CertFile tls ≠ ""
                     ∧ WebhookTLSConfig.KeyFile tls ≠ ""
                     ∧ exists_file (WebhookTLSConfig.CertFile tls)
                     ∧ exists_file (WebhookTLSConfig.KeyFile tls)) as Hwebhook.
  { intros webhook. unfold Rev2.WebhookConfig.Validate.
    destruct (Rev2.WebhookConfig.TLS webhook) as [tls|];
      [|split; [done|by intros (? & ? & _)]].
    rewrite if_err_nil, Rev2_WebhookTLSConfig_Validate_stricter by done.
    unfold WebhookTLSConfig.Validate, errors.New, nil. split.
    - intros [(Hfields & ? & ?) _]. exists tls.
      repeat case_bool_decide; done.
    - intros (? & [= <-] & ? & ? & ? & ?). by rewrite !bool_decide_false. }
  unfold Rev2.Config.Validate. rewrite <- (Rev2_range_controllers_nil _ 0).
  destruct (Rev2.Config.range_controllers 0 (Rev2.Config.Controllers c))
    as [[text|]|]; [unfold nil; naive_solver| |unfold nil; naive_solver].
  destruct (Rev2.Config.Webhook c) as [webhook|]; simpl.
  - split.
    + intros [= Hnil]. split; [done|]. intros ? [= <-]. apply Hwebhook.
      revert Hnil. rewrite if_err_nil by done. by intros [? _].
    + intros [_ Hw]. f_equal. rewrite if_err_nil by done.
      split; [|done]. apply Hwebhook. eauto.
  - unfold nil. naive_solver.
Qed.

End second_revision_controllers.

Section second_revision_loading.

Context {time_api : time.API} {os_api : os.API}.
Context {ioutil_api : ioutil.API} {yaml_api : Rev2.yaml.API}.

(** X16.  [LoadFile] of the second revision returns validated
    configurations only, and its answer depends on the file system a
    second time: whenever it returns, exactly one of the config and
    the error is nil; it returns the config [c] exactly when the file
    is read, the document decodes into [c] and [Config.Validate]
    returns [nil] on [c]; and then the certificate and the key of a
    webhook section of [c] are files that [os.Stat] finds. *)
Theorem Rev2_LoadFile_returns_validated (p : string) :
  (∀ config err, Rev2.LoadFile p = Returns (config, err) →
                 (config = None ↔ is_Some err))
  ∧ (∀ c, Rev2.LoadFile p = Returns (Some c, nil)
          ↔ (ioutil.ReadFile p).2 = nil
            ∧ Rev2.yaml.Unmarshal (ioutil.ReadFile p).1 Rev2.Config.zero
              = (c, nil)
            ∧ Rev2.Config.Validate c = Returns nil)
  ∧ (∀ c webhook,
        Rev2.LoadFile p = Returns (Some c, nil) →
        Rev2.Config.Webhook c = Some webhook →
        ∃ tls, Rev2.WebhookConfig.TLS webhook = Some tls
               ∧ exists_file (WebhookTLSConfig.CertFile tls)
               ∧ exists_file (WebhookTLSConfig.KeyFile tls)).
Proof.
  assert (∀ c, Rev2.LoadFile p = Returns (Some c, nil)
             ↔ (ioutil.ReadFile p).2 = nil
               ∧ Rev2.yaml.Unmarshal (ioutil.ReadFile p).1 Rev2.Config.zero
                 = (c, nil)
               ∧ Rev2.Config.Validate c = Returns nil) as Hloaded.
  { unfold Rev2.LoadFile, nil.
    destruct (ioutil.ReadFile p) as [buf [rtext|]]; simpl; [naive_solver|].
    destruct (Rev2.yaml.Unmarshal buf Rev2.Config.zero) as [c [utext|]];
      simpl; [naive_solver|].
    intros c0.
    destruct (Rev2.Config.Validate c) as [[vtext|]|] eqn:Hv;
      (split; [intros [=]; subst; done|]);
      intros (_ & [= <-] & Hnil); congruence. }
  split_and!; [|done|].
  - unfold Rev2.LoadFile, nil.
    destruct (ioutil.ReadFile p) as [buf [rtext|]]; simpl;
      [intros ? ? [= <- <-]; naive_solver|].
    destruct (Rev2.yaml.Unmarshal buf Rev2.Config.zero) as [c [utext|]];
      simpl; [intros ? ? [= <- <-]; naive_solver|].
    destruct (Rev2.Config.Validate c) as [[vtext|]|];
      intros ? ? [=]; subst; naive_solver.
  - intros c webhook (_ & _ & Hvalid)%Hloaded Hwebhook.
    apply Rev2_Config_Validate_accepts_iff in Hvalid as [_ Hw].
    destruct (Hw _ Hwebhook) as (tls & ? & _ & _ & ? & ?). eauto.
Qed.

End second_revision_loading.

Section webhook_handlers.

Context {time_api : time.API}.

(** X17.  Every webhook handler config that
    [WebhookHandlerConfig.Validate] accepts has a non-empty resource
    and, when it has a validator, a validator that sets exactly one
    of exec, http and func; about the mutator and the injector the
    acceptance says nothing. *)
Theorem WebhookHandlerConfig_Validate_validator_one_variant
    (c : WebhookHandlerConfig.t) :
  WebhookHandlerConfig.Validate c = nil →
  schema.GroupVersionKind.Empty (WebhookHandlerConfig.Resource c) = false
  ∧ (∀ validator, WebhookHandlerConfig.Validator c = Some validator →
                  one_variant validator).
Proof.
  unfold WebhookHandlerConfig.Validate.
  destruct (schema.GroupVersionKind.Empty _); [done|].
  rewrite if_err_nil by done. intros [Hvalid _]. split; [done|].
  intros validator Hsome. rewrite Hsome in Hvalid.
  by apply HandlerConfig_Validate_one_variant.
Qed.

End webhook_handlers.

(** ** The further properties on the sample environment *)

Lemma Config_Validate_reports_first_invalid_controller_witness :
  Config.Validate (time_api := sample.time_API)
    (sample.config
       [Some (sample.plain_controller "hello");
        Some sample.unnamed_controller; None]
       None)
  = Returns (Some "controller[1]: name must be specified").
Proof.
  apply (Config_Validate_reports_first_invalid_controller
           (time_api := sample.time_API)
           (sample.config
              [Some (sample.plain_controller "hello");
               Some sample.unnamed_controller; None]
              None)
           [Some (sample.plain_controller "hello")]
           sample.unnamed_controller [None] "name must be specified").
  - reflexivity.
  - constructor; [|constructor].
    exists (sample.plain_controller "hello"). split; reflexivity.
  - reflexivity.
Defined.

Lemma Config_Validate_webhook_before_metrics_witness :
  Config.Validate (time_api := sample.time_API)
    {| Config.Controllers := [Some (sample.timed_controller "hello")];
       Config.Webhook := Some (sample.webhook None);
       Config.Metrics := Some (sample.metrics 0) |}
  = Returns (Some "webhook: tls must be specified")
  ∧ Config.Validate (time_api := sample.time_API)
      {| Config.Controllers := [Some (sample.timed_controller "hello")];
         Config.Webhook := None;
         Config.Metrics := Some (sample.metrics 0) |}
    = Returns (Some "metrics: port must be specified").
Proof.
  assert (Forall (valid_entry (time_api := sample.time_API))
            [Some (sample.timed_controller "hello")]) as Hvalid.
  { constructor; [|constructor].
    exists (sample.timed_controller "hello"). split; [reflexivity|].
    vm_compute. reflexivity. }
  split.
  - apply (proj1 (Config_Validate_webhook_before_metrics
                    (time_api := sample.time_API)
                    {| Config.Controllers :=
                         [Some (sample.timed_controller "hello")];
                       Config.Webhook := Some (sample.webhook None);
                       Config.Metrics := Some (sample.metrics 0) |}
                    Hvalid)
             (sample.webhook None) "tls must be specified");
      reflexivity.
  - apply (proj2 (Config_Validate_webhook_before_metrics
                    (time_api := sample.time_API)
                    {| Config.Controllers :=
                         [Some (sample.timed_controller "hello")];
                       Config.Webhook := None;
                       Config.Metrics := Some (sample.metrics 0) |}
                    Hvalid)
             (sample.metrics 0)).
    + intros webhook Hnone. discriminate Hnone.
    + reflexivity.
    + reflexivity.
Defined.

Lemma ControllerConfig_Validate_reports_first_invalid_reference_witness :
  ControllerConfig.Validate (time_api := sample.time_API)
    (sample.bare_controller
       [sample.secret_reference; sample.pathless_reference] [])
  = Some "references[1]: nameFieldPath must be specified".
Proof.
  apply (ControllerConfig_Validate_reports_first_invalid_reference
           (time_api := sample.time_API)
           (sample.bare_controller
              [sample.secret_reference; sample.pathless_reference] [])
           [sample.secret_reference] sample.pathless_reference []
           "nameFieldPath must be specified").
  - discriminate.
  - reflexivity.
  - reflexivity.
  - repeat constructor.
  - reflexivity.
Defined.

Lemma ControllerConfig_Validate_reports_first_empty_dependent_witness :
  ControllerConfig.Validate (time_api := sample.time_API)
    (sample.bare_controller [sample.secret_reference]
       [sample.dependent "" "v1" "ConfigMap"; sample.dependent "" "" ""])
  = Some "dependents[1] is empty".
Proof.
  apply (ControllerConfig_Validate_reports_first_empty_dependent
           (time_api := sample.time_API)
           (sample.bare_controller [sample.secret_reference]
              [sample.dependent "" "v1" "ConfigMap";
               sample.dependent "" "" ""])
           [sample.dependent "" "v1" "ConfigMap"]
           (sample.dependent "" "" "") []).
  - discriminate.
  - reflexivity.
  - repeat constructor.
  - reflexivity.
  - repeat constructor.
  - reflexivity.
Defined.

Lemma ControllerConfig_Validate_handlers_one_variant_witness :
  (∃ reconciler,
      ControllerConfig.Reconciler (sample.timed_controller "hello")
      = Some reconciler
      ∧ one_variant (ReconcilerConfig.HandlerConfig reconciler))
  ∧ (∀ finalizer,
      ControllerConfig.Finalizer (sample.timed_controller "hello")
      = Some finalizer →
      one_variant finalizer).
Proof.
  apply (ControllerConfig_Validate_handlers_one_variant
           (time_api := sample.time_API) (sample.timed_controller "hello")).
  vm_compute. reflexivity.
Defined.

Lemma HandlerConfig_Validate_http_tls_names_no_file_witness :
  HTTPHanlderTLSConfig.CertFile sample.tls_no_files = ""
  ∧ HTTPHanlderTLSConfig.KeyFile sample.tls_no_files = "".
Proof.
  apply (HandlerConfig_Validate_http_tls_names_no_file
           (time_api := sample.time_API)
           {| HandlerConfig.Exec := None;
              HandlerConfig.HTTP :=
                Some (sample.http "https://handler.example.com/"
                        (Some sample.tls_no_files));
              HandlerConfig.Func := None |}
           (sample.http "https://handler.example.com/"
              (Some sample.tls_no_files))
           sample.tls_no_files); reflexivity.
Defined.

Lemma ControllerConfig_Validate_dependents_non_empty_witness :
  (∀ dep,
      dep ∈ ControllerConfig.Dependents (sample.timed_controller "hello") →
      DependentConfig.Validate dep = nil
      ∧ (schema.GroupVersionKind.Group (DependentConfig.GroupVersionKind dep) ≠ ""
         ∨ schema.GroupVersionKind.Version (DependentConfig.GroupVersionKind dep) ≠ ""
         ∨ schema.GroupVersionKind.Kind (DependentConfig.GroupVersionKind dep) ≠ ""))
  ∧ (schema.GroupVersionKind.Group
       (ControllerConfig.Resource (sample.timed_controller "hello")) ≠ ""
     ∨ schema.GroupVersionKind.Version
         (ControllerConfig.Resource (sample.timed_controller "hello")) ≠ ""
     ∨ schema.GroupVersionKind.Kind
         (ControllerConfig.Resource (sample.timed_controller "hello")) ≠ "").
Proof.
  apply (ControllerConfig_Validate_dependents_non_empty
           (time_api := sample.time_API) (sample.timed_controller "hello")).
  vm_compute. reflexivity.
Defined.

Lemma LoadFile_config_or_error_witness :
  LoadFile (time_api := sample.time_API) (ioutil_api := sample.ioutil_API)
    (yaml_api := sample.yaml_API) "config.yaml"
  = Returns
      (Some (sample.config [Some (sample.timed_controller "hello")] None), nil).
Proof.
  apply (proj1 (proj2 (LoadFile_config_or_error
                         (time_api := sample.time_API)
                         (ioutil_api := sample.ioutil_API)
                         (yaml_api := sample.yaml_API) "config.yaml"))).
  split_and!.
  - reflexivity.
  - vm_compute. reflexivity.
  - vm_compute. reflexivity.
Defined.

Lemma Rev2_HandlerConfig_Validate_agrees_witness :
  Rev2.HandlerConfig.Validate (time_api := sample.time_API)
    (os_api := sample.os_API)
    {| Rev2.HandlerConfig.Exec := None;
       Rev2.HandlerConfig.HTTP :=
         Some (sample.http "https://handler.example.com/"
                (Some sample.tls_no_files)) |}
  = HandlerConfig.Validate (time_api := sample.time_API)
      {| HandlerConfig.Exec := None;
         HandlerConfig.HTTP :=
           Some (sample.http "https://handler.example.com/"
                (Some sample.tls_no_files));
         HandlerConfig.Func := None |}.
Proof.
  apply (Rev2_HandlerConfig_Validate_agrees (time_api := sample.time_API)
           (os_api := sample.os_API)
           None (Some (sample.http "https://handler.example.com/"
                (Some sample.tls_no_files)))).
  intros h tls [= <-] [= <-]. split_and!; reflexivity.
Defined.

Lemma Rev2_LoadFile_returns_validated_witness :
  ∃ tls,
    Rev2.WebhookConfig.TLS
      (sample.webhook2
         (Some (sample.webhook_tls "/etc/tls/tls.crt" "/etc/tls/tls.key")))
    = Some tls
    ∧ exists_file (os_api := sample.os_API_tls) (WebhookTLSConfig.CertFile tls)
    ∧ exists_file (os_api := sample.os_API_tls) (WebhookTLSConfig.KeyFile tls).
Proof.
  apply (proj2 (proj2 (Rev2_LoadFile_returns_validated
                         (time_api := sample.time_API)
                         (os_api := sample.os_API_tls)
                         (ioutil_api := sample.ioutil_API)
                         (yaml_api := sample.yaml_API2) "config.yaml"))
           (sample.config2
              [Some (sample.controller2
                       (Some (sample.exec_handler2 "/bin/reconciler")) None
                       [] None)]
              (Some (sample.webhook2
                       (Some (sample.webhook_tls "/etc/tls/tls.crt"
                                "/etc/tls/tls.key")))))).
  - vm_compute. reflexivity.
  - reflexivity.
Defined.

Lemma WebhookHandlerConfig_Validate_validator_one_variant_witness :
  schema.GroupVersionKind.Empty
    (WebhookHandlerConfig.Resource sample.webhook_handler) = false
  ∧ (∀ validator,
      WebhookHandlerConfig.Validator sample.webhook_handler = Some validator →
      one_variant validator).
Proof.
  apply (WebhookHandlerConfig_Validate_validator_one_variant
           (time_api := sample.time_API) sample.webhook_handler).
  vm_compute. reflexivity.
Defined.
